(** * Cerebro AI backend: a shallow embedding of [server.js]

    The development follows the request handlers of [server.js]:

    - [Generate]  : [POST /api/adaptive/generate]  (difficulty estimator,
                    topic filter, fence stripping, payload validation,
                    success and error responses);
    - [Analytics] : [POST /api/adaptive/analytics] (tally, thresholds,
                    averages);
    - [Speak]     : [POST /api/language/speak]     (text-to-speech relay);
    - [Conversation] : [POST /api/language/conversation] (message window).

    Conventions.
    - A JavaScript Number is an exact rational ([Q]); the handlers only
      compare Numbers with literals and divide small counters, and a JSON
      body cannot carry NaN or an infinity.  An integer field is a [Z].
      Where the code rounds a quotient of counters ([Math.round],
      [toFixed]) the model rounds the exact quotient; the double of the
      code rounds to the same result unless the exact quotient lies
      half-way between two results, where it may fall on either side, so
      the theorems on rounded values state closed bounds, which both
      satisfy.
    - Strings that the code only compares and concatenates (topics,
      difficulty tags, messages) are [string]s; the provider text, which
      the code scans character by character, is a list of UTF-16 code
      units ([Js.text]).
    - What lies outside the process (the provider's reply, [JSON.parse],
      the environment variables, the clock) is an input of the handler.
    - Fields of a request body have the types of the data model: an
      optional Number for [accuracy], an optional integer for [streak],
      an optional string for [topic] and [difficulty], a boolean for
      [correct]; [None] stands for an absent or [null] field.
    - [Object.prototype] is as the engine ships it when a request
      arrives; what the tally of a request adds to it is part of the
      state of that tally ([Analytics.Proto]). *)

From Equations Require Import Equations.
From Equations.Prop Require Import Logic.
From Stdlib Require Import List String ZArith QArith Qround Bool Lia Lqa.
Import ListNotations.

Open Scope string_scope.
Open Scope list_scope.

(* ===================================================================== *)
(** ** JavaScript values *)
(* ===================================================================== *)

Module Js.

(** A value produced by [JSON.parse] (also: a field of [req.body]).
    An object is the list of its own properties, looked up by key. *)
#[warnings="-register-all"]
Inductive json : Type :=
| JNull
| JBool (b : bool)
| JNum (q : Q)
| JStr (s : string)
| JArr (l : list json)
| JObj (fields : list (string * json)).

(** A thrown exception: its [name] and its [message]. *)
Record exn : Type := Exn { name : string; message : string }.

Definition Error (msg : string) : exn := Exn "Error" msg.
Definition TypeError (msg : string) : exn := Exn "TypeError" msg.
Definition SyntaxError (msg : string) : exn := Exn "SyntaxError" msg.

(** [Error.prototype.toString]. *)
Definition toString (e : exn) : string :=
  if String.eqb (message e) "" then name e
  else (name e ++ ": " ++ message e)%string.

(** The result of a computation that may throw. *)
Inductive result (A : Type) : Type :=
| Ret (a : A)
| Throw (e : exn).
Arguments Ret {A} a.
Arguments Throw {A} e.

Definition bind {A B} (m : result A) (k : A -> result B) : result B :=
  match m with
  | Ret a => k a
  | Throw e => Throw e
  end.

(** ToBoolean on a JSON value; [None] is [undefined]. *)
Definition truthy (v : option json) : bool :=
  match v with
  | None => false
  | Some JNull => false
  | Some (JBool b) => b
  | Some (JNum q) => negb (Qeq_bool q 0)
  | Some (JStr s) => negb (String.eqb s "")
  | Some (JArr _) => true
  | Some (JObj _) => true
  end.

Fixpoint assoc {A} (k : string) (l : list (string * A)) : option A :=
  match l with
  | [] => None
  | (k', v) :: l' => if String.eqb k k' then Some v else assoc k l'
  end.

(** Member access [v.k] for a key [k] that no prototype defines:
    [undefined] on a primitive, an array or an object without the key;
    a [TypeError] on [null]. *)
Definition get (v : json) (k : string) : result (option json) :=
  match v with
  | JNull => Throw (TypeError ("Cannot read properties of null (reading '" ++ k ++ "')"))
  | JObj fields => Ret (assoc k fields)
  | _ => Ret None
  end.

Definition isArray (v : option json) : bool :=
  match v with
  | Some (JArr _) => true
  | _ => false
  end.

(** ToString, as a template literal applies it to a value, throws a
    [TypeError] for an object with an own member [toString] (a member
    read from JSON is never callable, and [valueOf] then yields the
    object itself) and for an array that holds such a value; every other
    value, [undefined] included, prints. *)
Fixpoint printable (v : json) : bool :=
  match v with
  | JObj fields =>
      match assoc "toString" fields with
      | Some _ => false
      | None => true
      end
  | JArr l => forallb printable l
  | _ => true
  end.

Definition interpolates (v : option json) : bool :=
  match v with
  | Some x => printable x
  | None => true
  end.

(** [`${v}`]. *)
Definition interpolate (v : option json) : result unit :=
  if interpolates v then Ret tt
  else Throw (TypeError "Cannot convert object to primitive value").

(** [x || d] on an optional Number: [undefined], [null] (both [None])
    and [0] are falsy. *)
Definition orQ (x : option Q) (d : Q) : Q :=
  match x with
  | Some q => if Qeq_bool q 0 then d else q
  | None => d
  end.

Definition orZ (x : option Z) (d : Z) : Z :=
  match x with
  | Some z => if (z =? 0)%Z then d else z
  | None => d
  end.

(** [x || d] on an optional string: the empty string is falsy. *)
Definition orStr (x : option string) (d : string) : string :=
  match x with
  | Some s => if String.eqb s "" then d else s
  | None => d
  end.

(** ToBoolean on an optional string. *)
Definition truthyStr (x : option string) : bool :=
  match x with
  | Some s => negb (String.eqb s "")
  | None => false
  end.

(** Comparison of Numbers. *)
Definition gtb (a b : Q) : bool := negb (Qle_bool a b).
Definition ltb (a b : Q) : bool := negb (Qle_bool b a).
Definition geb (a b : Q) : bool := Qle_bool b a.

(** [Math.round]: the nearest integer, a tie going up. *)
Definition round (x : Q) : Z := Qfloor (x + (1 # 2)).

(** [Array.prototype.slice(start)] for a negative or positive start. *)
Definition slice {A} (start : Z) (l : list A) : list A :=
  let len := Z.of_nat (List.length l) in
  let k := if (start <? 0)%Z then Z.max (len + start) 0 else Z.min start len in
  skipn (Z.to_nat k) l.

(** [Array.prototype.join] on strings. *)
Fixpoint join (sep : string) (l : list string) : string :=
  match l with
  | [] => ""
  | [s] => s
  | s :: l' => (s ++ sep ++ join sep l')%string
  end.

(** UTF-16 code units, for text that is scanned. *)
Definition text : Type := list N.

End Js.

(** An item of a question history ([questionHistory], [history]). *)
Module History.

Record QuestionRecord : Type := {
  topic : option string;
  difficulty : option string;
  correct : bool
}.

End History.

(* ===================================================================== *)
(** ** POST /api/adaptive/generate *)
(* ===================================================================== *)

Module Generate.

Import Js.

(** [req.body.performance]. *)
Record Performance : Type := {
  accuracy : option Q;
  streak : option Z
}.

(** [performance?.f]. *)
Definition opt {A} (performance : option Performance)
           (f : Performance -> option A) : option A :=
  match performance with
  | Some p => f p
  | None => None
  end.

(** [const avgAccuracy = performance?.accuracy || 0.5]. *)
Definition avgAccuracy (performance : option Performance) : Q :=
  orQ (opt performance accuracy) 0.5.

(** [const streak = performance?.streak || 0]. *)
Definition streak' (performance : option Performance) : Z :=
  orZ (opt performance streak) 0.

(** [let targetDifficulty = 'medio'; if ... else if ...]. *)
Definition targetDifficulty (performance : option Performance) : string :=
  let avgAccuracy := avgAccuracy performance in
  let streak := streak' performance in
  if gtb avgAccuracy 0.8 && (3 <=? streak)%Z then "difícil"
  else if ltb avgAccuracy 0.5 || (streak <? 0)%Z then "fácil"
  else "medio".

(** [metadata.adaptiveReason]. *)
Definition adaptiveReason (performance : option Performance) : string :=
  let avgAccuracy := avgAccuracy performance in
  if gtb avgAccuracy 0.8 then "Alto rendimiento - aumentando dificultad"
  else if ltb avgAccuracy 0.5 then "Bajo rendimiento - reduciendo dificultad"
  else "Rendimiento estable - manteniendo nivel".

(** [.filter(Boolean)] on optional strings. *)
Definition filterBoolean (l : list (option string)) : list string :=
  flat_map (fun t => match t with
                     | Some s => if String.eqb s "" then [] else [s]
                     | None => []
                     end) l.

(** [const recentTopics = questionHistory
      ? questionHistory.slice(-5).map(q => q.topic).filter(Boolean).join(', ')
      : '']. *)
Definition recentTopics (questionHistory : option (list History.QuestionRecord)) : string :=
  match questionHistory with
  | Some h => join ", " (filterBoolean (map History.topic (slice (-5) h)))
  | None => ""
  end.

(** [const competencyMap = { ... }]: subject, then level. *)
Definition competencyMap : list (string * list (string * string)) :=
  [ ("Matemáticas",
     [ ("fácil", "STEM - Resolución de problemas básicos");
       ("medio", "STEM - Razonamiento matemático aplicado");
       ("difícil", "STEM - Modelización y pensamiento abstracto") ]);
    ("Lengua",
     [ ("fácil", "CCL - Comprensión lectora básica");
       ("medio", "CCL - Análisis textual y expresión");
       ("difícil", "CCL - Interpretación crítica y argumentación") ]);
    ("Ciencias",
     [ ("fácil", "CCL - Conocimiento científico básico");
       ("medio", "STEM - Método científico y experimentación");
       ("difícil", "STEM - Análisis científico avanzado") ]);
    ("Historia",
     [ ("fácil", "CC - Conocimiento histórico fundamental");
       ("medio", "CC - Análisis de procesos históricos");
       ("difícil", "CC - Pensamiento histórico crítico") ]);
    ("Inglés",
     [ ("fácil", "CCL - Comprensión básica de inglés");
       ("medio", "CCL - Comunicación en inglés aplicada");
       ("difícil", "CCL - Dominio avanzado del inglés") ]) ].

(** [const lomloeCompetency =
      competencyMap[subject]?.[targetDifficulty] || 'Competencia general'],
    for a [subject] that is a string.  (A name that [competencyMap] only
    inherits leads to an object without the three level names, hence to
    the same fallback as an absent subject.) *)
Definition lomloeCompetency (subject : string) (performance : option Performance) : string :=
  let targetDifficulty := targetDifficulty performance in
  orStr (match assoc subject competencyMap with
         | Some levels => assoc targetDifficulty levels
         | None => None
         end)
        "Competencia general".

(** The line of the prompt
    [${recentTopics ? `- Temas recientes (EVITA REPETIR): ${recentTopics}` : ''}]. *)
Definition topicsClause (recentTopics : string) : string :=
  if String.eqb recentTopics "" then ""
  else ("- Temas recientes (EVITA REPETIR): " ++ recentTopics)%string.

(** *** Fence stripping *)

Definition backtick : N := 96.
Definition LF : N := 10.

(** The three backticks of a fence, and the tag [json]. *)
Definition fence : text := [backtick; backtick; backtick].
Definition json_tag : text := [106; 115; 111; 110]%N.

(** [after p s]: the rest of [s] behind its prefix [p]. *)
Fixpoint after (p s : text) : option text :=
  match p, s with
  | [], _ => Some s
  | a :: p', b :: s' => if N.eqb a b then after p' s' else None
  | _ :: _, [] => None
  end.

(** The greedy [\n?]. *)
Definition optLF (s : text) : text :=
  match s with
  | c :: s' => if N.eqb c LF then s' else s
  | [] => []
  end.

(** One match of the pattern [```tag\n?] at the head of [s]: the text
    behind the match. *)
Definition matchAt (tag s : text) : option text :=
  option_map optLF (after (fence ++ tag) s).

(** [s.replace(/```tag\n?/g, '')]: leftmost matches, none overlapping. *)
Equations? replaceFence (tag : text) (s : text) : text by wf (List.length s) lt :=
  replaceFence tag [] := [];
  replaceFence tag (c :: s') with inspect (matchAt tag (c :: s')) := {
    | exist _ (Some rest) _ := replaceFence tag rest;
    | exist _ None _ := c :: replaceFence tag s' }.
Proof.
  all: try (simpl; lia).
  unfold matchAt in e.
  destruct (after (fence ++ tag) (c :: s')) as [r|] eqn:Ha; [|discriminate].
  injection e as <-.
  assert (Hlen : forall p s r0, after p s = Some r0 ->
                   List.length s = (List.length p + List.length r0)%nat).
  { induction p as [|a p IH]; intros s r0 H; simpl in H.
    - injection H as <-. reflexivity.
    - destruct s as [|b s]; [discriminate|].
      destruct (N.eqb a b); [|discriminate].
      simpl. rewrite (IH _ _ H). reflexivity. }
  apply Hlen in Ha. rewrite length_app in Ha. simpl in Ha |- *.
  assert (List.length (optLF r) <= List.length r)%nat.
  { destruct r as [|x r]; simpl; [lia|]. destruct (N.eqb x LF); simpl; lia. }
  lia.
Qed.

(** WhiteSpace and LineTerminator code units, as [String.prototype.trim]
    takes them. *)
Definition isWhiteSpace (c : N) : bool :=
  existsb (N.eqb c)
          [9; 10; 11; 12; 13; 32; 160; 5760; 8232; 8233; 8239; 8287; 12288; 65279]%N
  || ((8192 <=? c)%N && (c <=? 8202)%N).

Fixpoint trimStart (s : text) : text :=
  match s with
  | c :: s' => if isWhiteSpace c then trimStart s' else s
  | [] => []
  end.

Definition trimEnd (s : text) : text := rev (trimStart (rev s)).

Definition trim (s : text) : text := trimEnd (trimStart s).

(** [const jsonContent = aiContent.replace(/```json\n?/g, '')
                                  .replace(/```\n?/g, '').trim()]. *)
Definition jsonContent (aiContent : text) : text :=
  trim (replaceFence [] (replaceFence json_tag aiContent)).

(** *** Validation of the parsed payload *)

(** [if (!questionData.question || !Array.isArray(questionData.options)
         || questionData.correctIndex === undefined)
       throw new Error('Invalid question format from AI')]. *)
Definition validate (questionData : json) : result json :=
  bind (get questionData "question") (fun question =>
  if negb (truthy question) then Throw (Error "Invalid question format from AI")
  else
  bind (get questionData "options") (fun options =>
  if negb (isArray options) then Throw (Error "Invalid question format from AI")
  else
  bind (get questionData "correctIndex") (fun correctIndex =>
  match correctIndex with
  | None => Throw (Error "Invalid question format from AI")
  | Some _ => Ret questionData
  end))).

(** *** The handler *)

(** [process.env] as the handler reads it, and the clock. *)
Record Env : Type := {
  OPENROUTER_API_KEY : option string;
  NODE_ENV : option string;
  now : string
}.

(** [req.body]. *)
Record Body : Type := {
  level : option json;
  subject : option json;
  performance : option Performance;
  questionHistory : option (list History.QuestionRecord)
}.

(** What the completion provider does with the one request: the call (or
    reading the completion out of its body) throws; it answers with a
    non-success status; or it answers with [data.choices[0].message.content]
    and [data.usage]. *)
Inductive Provider : Type :=
| FetchThrows (e : exn)
| NotOk (statusText errorText : string)
| Ok (content : text) (usage : option json).

(** A line written to the console. *)
Inductive Logged : Type :=
| error_key_not_configured
| log_generating (level subject : option json) (targetDifficulty : string)
| error_openrouter (errorText : string)
| error_failed_to_parse (aiContent : text)
| error_adaptive_generation (e : exn).

Record Metadata : Type := {
  md_aiModel : string;
  md_targetDifficulty : string;
  md_adaptiveReason : string;
  md_timestamp : string;
  md_usageTokens : json
}.

(** The JSON body of the response; an [undefined] member is [None]. *)
Inductive Payload : Type :=
| Success (question : json) (metadata : Metadata)
| Failure (error : string) (details : option string).

Record Response : Type := {
  status : nat;
  payload : Payload
}.

(** A computation that writes to the console and may throw. *)
Definition M (A : Type) : Type := list Logged * result A.

Definition ret {A} (a : A) : M A := ([], Ret a).
Definition throw {A} (e : exn) : M A := ([], Throw e).
Definition tell (l : Logged) : M unit := ([l], Ret tt).

Definition bindM {A B} (m : M A) (k : A -> M B) : M B :=
  match m with
  | (w, Ret a) => let (w', r) := k a in (w ++ w', r)
  | (w, Throw e) => (w, Throw e)
  end.

(** [try { m } catch (e) { h e }]. *)
Definition tryCatch {A} (m : M A) (h : exn -> M A) : M A :=
  match m with
  | (w, Ret a) => (w, Ret a)
  | (w, Throw e) => let (w', r) := h e in (w ++ w', r)
  end.

Notation "x <- m ;; k" := (bindM m (fun x => k))
  (at level 61, m at next level, right associativity).
Notation "m ;;; k" := (bindM m (fun _ => k))
  (at level 61, right associativity).

Section Handler.

(** [JSON.parse]: the parsed value, or the [SyntaxError] it throws. *)
Variable JSON_parse : text -> result json.

(** The inner [try] block: strip, parse, validate. *)
Definition parseBlock (aiContent : text) : result json :=
  let jsonContent := jsonContent aiContent in
  bind (JSON_parse jsonContent) validate.

(** The inner [try ... catch (parseError)]: every failure of the block is
    logged with the provider text and rethrown as one fixed [Error]. *)
Definition questionData (aiContent : text) : M json :=
  tryCatch ([], parseBlock aiContent)
           (fun parseError =>
              tell (error_failed_to_parse aiContent) ;;;
              throw (Error "AI generated invalid response format")).

(** The call [fetch(...)] and the reading of its reply. *)
Definition complete (provider : Provider) : M (text * option json) :=
  match provider with
  | FetchThrows e => throw e
  | NotOk statusText errorText =>
      tell (error_openrouter errorText) ;;;
      throw (Error ("OpenRouter API failed: " ++ statusText))
  | Ok content usage => ret (trim content, usage)
  end.

(** [data.usage || {}]. *)
Definition usageTokens (usage : option json) : json :=
  match usage with
  | Some u => if truthy usage then u else JObj []
  | None => JObj []
  end.

(** What building the request to the provider asks of the body:
    [competencyMap[subject]] turns [subject] into a property key, and the
    template literal [systemPrompt] prints [level] and [subject]; each of
    them throws a [TypeError] on a value that cannot be printed. *)
Definition systemPrompt (level subject : option json) : M unit :=
  ([], bind (interpolate subject) (fun _ =>
       bind (interpolate level) (fun _ =>
       interpolate subject))).

Definition json_200 (p : Payload) : Response := {| status := 200; payload := p |}.
Definition json_400 (p : Payload) : Response := {| status := 400; payload := p |}.
Definition json_500 (p : Payload) : Response := {| status := 500; payload := p |}.

(** The outer [catch (error)]. *)
Definition onError (env : Env) (error : exn) : M Response :=
  tell (error_adaptive_generation error) ;;;
  ret (json_500
         (Failure
            (if String.eqb (message error) "" then "Error generating adaptive content"
             else message error)
            (match NODE_ENV env with
             | Some mode => if String.eqb mode "development"
                            then Some (toString error) else None
             | None => None
             end))).

(** [app.post('/api/adaptive/generate', async (req, res) => ...)]. *)
Definition handler (env : Env) (body : Body) (provider : Provider) : M Response :=
  tryCatch
    (if negb (truthy (level body)) || negb (truthy (subject body)) then
       ret (json_400 (Failure "Missing required fields: level and subject" None))
     else
       let apiKey := OPENROUTER_API_KEY env in
       if negb (truthyStr apiKey) then
         tell error_key_not_configured ;;;
         ret (json_500
                (Failure "API key not configured. Please set OPENROUTER_API_KEY environment variable."
                         None))
       else
           let targetDifficulty := targetDifficulty (performance body) in
           systemPrompt (level body) (subject body) ;;;
           tell (log_generating (level body) (subject body) targetDifficulty) ;;;
           data <- complete provider ;;
           let (aiContent, usage) := data in
           questionData <- questionData aiContent ;;
           ret (json_200
                  (Success questionData
                           {| md_aiModel := "claude-3.5-sonnet";
                              md_targetDifficulty := targetDifficulty;
                              md_adaptiveReason := adaptiveReason (performance body);
                              md_timestamp := now env;
                              md_usageTokens := usageTokens usage |})))
    (onError env).

End Handler.

End Generate.

(* ===================================================================== *)
(** ** POST /api/adaptive/analytics *)
(* ===================================================================== *)

Module Analytics.

Import Js.

(** A value of [byDifficulty]: [{ correct, total }]. *)
Module Stats.
Record t : Type := { correct : Z; total : Z }.
End Stats.

(** An item of [strengthAreas] and [improvementAreas]. *)
Module Area.
Record t : Type := { level : string; accuracy : Z }.
End Area.

(** An item of [learningCurve]. *)
Module Point.
Record t : Type := { question : Z; correct : Z; difficulty : option string }.
End Point.

(** [byDifficulty]: its own properties, in insertion order. *)
Definition Tally : Type := list (string * Stats.t).

(** The [analytics] object of a non-empty history.  [averageDifficulty] is
    the decimal that [toFixed(1)] prints. *)
Module Summary.
Record t : Type := {
  totalQuestions : Z;
  accuracy : Z;
  correct : Z;
  incorrect : Z;
  averageDifficulty : Q;
  byDifficulty : Tally;
  strengthAreas : list Area.t;
  improvementAreas : list Area.t;
  learningCurve : list Point.t;
  currentStreak : Z
}.
End Summary.

(** The body sent: the empty-state summary, a full summary, or
    [{ success: false, error }] with status 500. *)
Inductive Response : Type :=
| Empty200
| Summary200 (analytics : Summary.t)
| Error500 (error : string).

(** The [switch] of [history.map(q => ...)]. *)
Definition weight (q : History.QuestionRecord) : Z :=
  match History.difficulty q with
  | Some d =>
      if String.eqb d "fácil" then 1
      else if String.eqb d "medio" then 2
      else if String.eqb d "difícil" then 3
      else 2
  | None => 2
  end.

Definition sum (l : list Z) : Z := fold_left Z.add l 0%Z.

(** The object literal [byDifficulty] starts from. *)
Definition byDifficulty0 : Tally :=
  [ ("fácil", {| Stats.correct := 0; Stats.total := 0 |});
    ("medio", {| Stats.correct := 0; Stats.total := 0 |});
    ("difícil", {| Stats.correct := 0; Stats.total := 0 |}) ].

(** The property names an object literal inherits from [Object.prototype]:
    [byDifficulty[k]] is then a function, or for [__proto__] the prototype
    itself, and the increments land on that object, away from the own
    properties. *)
Definition inherited : list string :=
  [ "constructor"; "hasOwnProperty"; "isPrototypeOf"; "propertyIsEnumerable";
    "toLocaleString"; "toString"; "valueOf"; "__proto__";
    "__defineGetter__"; "__defineSetter__"; "__lookupGetter__"; "__lookupSetter__" ].

Fixpoint put (k : string) (v : Stats.t) (t : Tally) : Tally :=
  match t with
  | [] => []
  | (k', v') :: t' => if String.eqb k k' then (k', v) :: t' else (k', v') :: put k v t'
  end.

(** The members that the increments of this request have put on
    [Object.prototype]: a record of difficulty [__proto__] writes [total]
    there, and [correct] too when it is correct.  From then on
    [byDifficulty['total']] (and [byDifficulty['correct']]) is a Number,
    on which an increment does nothing and does not throw. *)
Module Proto.
Record t : Type := { total : bool; correct : bool }.
End Proto.

(** [Object.prototype] as the engine ships it. *)
Definition shipped : Proto.t := {| Proto.total := false; Proto.correct := false |}.

(** The body of [history.forEach(q => ...)]:
    [const diff = q.difficulty || 'medio';
     byDifficulty[diff].total++;
     if (q.correct) byDifficulty[diff].correct++]. *)
Definition tally (state : Tally * Proto.t) (q : History.QuestionRecord)
  : result (Tally * Proto.t) :=
  let (byDifficulty, proto) := state in
  let diff := orStr (History.difficulty q) "medio" in
  match assoc diff byDifficulty with
  | Some stats =>
      Ret (put diff
               {| Stats.total := Stats.total stats + 1;
                  Stats.correct := if History.correct q
                                   then Stats.correct stats + 1
                                   else Stats.correct stats |}
               byDifficulty,
           proto)
  | None =>
      if String.eqb diff "__proto__" then
        Ret (byDifficulty,
             {| Proto.total := true;
                Proto.correct := Proto.correct proto || History.correct q |})
      else if existsb (String.eqb diff) inherited then Ret (byDifficulty, proto)
      else if (String.eqb diff "total" && Proto.total proto)
              || (String.eqb diff "correct" && Proto.correct proto)
      then Ret (byDifficulty, proto)
      else Throw (TypeError "Cannot read properties of undefined (reading 'total')")
  end.

Fixpoint forEach {S A} (f : S -> A -> result S) (s : S) (l : list A) : result S :=
  match l with
  | [] => Ret s
  | a :: l' => bind (f s a) (fun s' => forEach f s' l')
  end.

(** The body of [for (const [diff, stats] of Object.entries(byDifficulty))]. *)
Definition classify (areas : list Area.t * list Area.t) (entry : string * Stats.t)
  : list Area.t * list Area.t :=
  let (strengthAreas, improvementAreas) := areas in
  let (diff, stats) := entry in
  if (Stats.total stats >? 0)%Z then
    let acc := (inject_Z (Stats.correct stats) / inject_Z (Stats.total stats)) * 100 in
    let strengthAreas :=
      if geb acc 75
      then strengthAreas ++ [ {| Area.level := diff; Area.accuracy := round acc |} ]
      else strengthAreas in
    let improvementAreas :=
      if ltb acc 50
      then improvementAreas ++ [ {| Area.level := diff; Area.accuracy := round acc |} ]
      else improvementAreas in
    (strengthAreas, improvementAreas)
  else (strengthAreas, improvementAreas).

(** [l.map((q, idx) => f q idx)], counting from [idx]. *)
Fixpoint mapi {A B} (f : A -> Z -> B) (idx : Z) (l : list A) : list B :=
  match l with
  | [] => []
  | a :: l' => f a idx :: mapi f (idx + 1) l'
  end.

(** The loop [for (let i = history.length - 1; i >= 0; i--)], on the
    history read from its end. *)
Fixpoint trailing (reversed : list History.QuestionRecord) : Z :=
  match reversed with
  | q :: older => if History.correct q then trailing older + 1 else 0
  | [] => 0
  end.

(** [x.toFixed(1)] for [x >= 0]: the closest decimal with one digit behind
    the point, the larger one on a tie. *)
Definition toFixed1 (x : Q) : Q := Qfloor (x * 10 + (1 # 2)) # 10.

(** The [try] block, for a non-empty [history]. *)
Definition summary (history : list History.QuestionRecord) : result Summary.t :=
  let length := Z.of_nat (List.length history) in
  let correct := Z.of_nat (List.length (filter History.correct history)) in
  let accuracy := (inject_Z correct / inject_Z length) * 100 in
  let difficulties := map weight history in
  let avgDifficulty := inject_Z (sum difficulties) / inject_Z (Z.of_nat (List.length difficulties)) in
  bind (forEach tally (byDifficulty0, shipped) history) (fun state =>
  let byDifficulty := fst state in
  let (strengthAreas, improvementAreas) := fold_left classify byDifficulty ([], []) in
  let recent := slice (-10) history in
  let learningCurve :=
    mapi (fun q idx => {| Point.question := idx + 1;
                          Point.correct := if History.correct q then 1 else 0;
                          Point.difficulty := History.difficulty q |})
         0%Z recent in
  let streak := trailing (rev history) in
  Ret {| Summary.totalQuestions := length;
         Summary.accuracy := round accuracy;
         Summary.correct := correct;
         Summary.incorrect := length - correct;
         Summary.averageDifficulty := toFixed1 avgDifficulty;
         Summary.byDifficulty := byDifficulty;
         Summary.strengthAreas := strengthAreas;
         Summary.improvementAreas := improvementAreas;
         Summary.learningCurve := learningCurve;
         Summary.currentStreak := streak |}).

(** [app.post('/api/adaptive/analytics', async (req, res) => ...)]. *)
Definition handler (history : option (list History.QuestionRecord)) : Response :=
  match history with
  | None => Empty200
  | Some [] => Empty200
  | Some history =>
      match summary history with
      | Ret analytics => Summary200 analytics
      | Throw error => Error500 (message error)
      end
  end.

End Analytics.

(* ===================================================================== *)
(** ** POST /api/language/speak *)
(* ===================================================================== *)

Module Speak.

Import Js.

Record Env : Type := {
  OPENAI_API_KEY : option string;
  OPENROUTER_API_KEY : option string
}.

(** [req.body]. *)
Record Body : Type := {
  text : option json;
  language : option json;
  voice : option json
}.

(** What the speech provider does with the request: the call throws, it
    answers with a non-success status, or it answers with the audio. *)
Inductive Tts : Type :=
| FetchThrows (e : exn)
| NotOk (status : Z) (errorText : string)
| Ok (audioBuffer : list Byte.byte).

(** The JSON body of the response:
    [{ success: false, error: 'Text is required' }];
    [{ success: true, audioUrl: null, useNativeSpeech: true, message }];
    [{ success: true, audioUrl: <data URI of the audio>,
       useNativeSpeech: false, provider: 'openai', voice, size }]. *)
Inductive Payload : Type :=
| TextRequired
| NativeSpeech (message : string)
| Audio (audioBuffer : list Byte.byte) (voice : json) (size : nat).

Record Response : Type := {
  status : nat;
  payload : Payload
}.

(** The members [success], [audioUrl] and [useNativeSpeech] of a body;
    [audioUrl] is [null] ([None]) or the data URI of the audio. *)
Definition success (p : Payload) : bool :=
  match p with
  | TextRequired => false
  | NativeSpeech _ => true
  | Audio _ _ _ => true
  end.

Definition audioUrl (p : Payload) : option (option (list Byte.byte)) :=
  match p with
  | TextRequired => None
  | NativeSpeech _ => Some None
  | Audio audioBuffer _ _ => Some (Some audioBuffer)
  end.

Definition useNativeSpeech (p : Payload) : option bool :=
  match p with
  | TextRequired => None
  | NativeSpeech _ => Some true
  | Audio _ _ _ => Some false
  end.

(** [text.substring(0, 50)] of the log line: a [TypeError] unless [text]
    is a string. *)
Definition substring (text : option json) : result unit :=
  match text with
  | Some (JStr _) => Ret tt
  | _ => Throw (TypeError "text.substring is not a function")
  end.

(** The [try] block; its log line
    [`... "${text.substring(0, 50)}..." (${language}, voice: ${voice})`]
    is evaluated before the key is read. *)
Definition relay (env : Env) (body : Body) (tts : Tts) : result Response :=
  let voice := match voice body with Some v => v | None => JStr "nova" end in
  if negb (truthy (text body)) then
    Ret {| status := 400; payload := TextRequired |}
  else
    bind (substring (text body)) (fun _ =>
    bind (interpolate (language body)) (fun _ =>
    bind (interpolate (Some voice)) (fun _ =>
    let openaiKey := if truthyStr (OPENAI_API_KEY env) then OPENAI_API_KEY env
                     else OPENROUTER_API_KEY env in
    if negb (truthyStr openaiKey) then
      Ret {| status := 200; payload := NativeSpeech "No API key - using browser speech" |}
    else
      match tts with
      | FetchThrows e => Throw e
      | NotOk _ _ =>
          Ret {| status := 200;
                 payload := NativeSpeech "OpenAI TTS failed - using browser fallback" |}
      | Ok audioBuffer =>
          Ret {| status := 200;
                 payload := Audio audioBuffer voice (List.length audioBuffer) |}
      end))).

(** [app.post('/api/language/speak', async (req, res) => ...)], with its
    [catch (error)]. *)
Definition handler (env : Env) (body : Body) (tts : Tts) : Response :=
  match relay env body tts with
  | Ret response => response
  | Throw _ => {| status := 200; payload := NativeSpeech "Error - using browser fallback" |}
  end.

End Speak.

(* ===================================================================== *)
(** ** POST /api/language/conversation *)
(* ===================================================================== *)

Module Conversation.

Import Js.

(** [req.body]; [conversationHistory] is absent or an array. *)
Record Body : Type := {
  language : option string;
  level : option string;
  scenario : option string;
  userMessage : option string;
  conversationHistory : option (list json)
}.

(** An item of the array [messages] sent to the provider. *)
Record Message : Type := {
  role : string;
  content : option json
}.

(** [const isFirstMessage = !userMessage || userMessage === '']. *)
Definition isFirstMessage (body : Body) : bool :=
  negb (truthyStr (userMessage body))
  || match userMessage body with
     | Some u => String.eqb u ""
     | None => false
     end.

(** The body of [conversationHistory.slice(-6).forEach(msg => ...)]:
    [{ role: msg.role === 'user' ? 'user' : 'assistant', content: msg.content }]. *)
Definition turn (msg : json) : result Message :=
  bind (get msg "role") (fun r =>
  bind (get msg "content") (fun c =>
  Ret {| role := match r with
                 | Some (JStr x) => if String.eqb x "user" then "user" else "assistant"
                 | _ => "assistant"
                 end;
         content := c |})).

(** The pushes of a [forEach], in order; a throw ends the loop. *)
Fixpoint pushAll (l : list json) : result (list Message) :=
  match l with
  | [] => Ret []
  | msg :: l' =>
      bind (turn msg) (fun m =>
      bind (pushAll l') (fun ms => Ret (m :: ms)))
  end.

(** The array [messages], for the system prompt built above it. *)
Definition messages (systemPrompt : string) (body : Body) : result (list Message) :=
  let system := {| role := "system"; content := Some (JStr systemPrompt) |} in
  bind (match conversationHistory body with
        | Some history =>
            if (0 <? List.length history)%nat then pushAll (slice (-6) history)
            else Ret []
        | None => Ret []
        end) (fun turns =>
  Ret ([system] ++ turns
       ++ (if isFirstMessage body then []
           else [ {| role := "user";
                     content := option_map JStr (userMessage body) |} ]))).

(** The JSON body of the response:
    [{ success: true, aiMessage, corrections: [], metadata:
       { language, level, scenario, tokens } }] or
    [{ success: false, error }]. *)
Inductive Payload : Type :=
| Reply (aiMessage : text) (corrections : list json)
        (language level scenario : option string) (tokens : json)
| Failure (error : string).

Record Response : Type := {
  status : nat;
  payload : Payload
}.

(** [app.post('/api/language/conversation', async (req, res) => ...)];
    [systemPrompt] is the text of its template, [provider] what the
    completion provider does with the request. *)
Definition handler (OPENROUTER_API_KEY : option string) (systemPrompt : string)
           (body : Body) (provider : Generate.Provider) : Response :=
  if negb (truthyStr (language body)) || negb (truthyStr (level body))
     || negb (truthyStr (scenario body)) then
    {| status := 400;
       payload := Failure "Missing required fields: language, level, scenario" |}
  else if negb (truthyStr OPENROUTER_API_KEY) then
    {| status := 500; payload := Failure "API key not configured" |}
  else
    match
      bind (messages systemPrompt body) (fun _ =>
      match provider with
      | Generate.FetchThrows e => Throw e
      | Generate.NotOk statusText _ =>
          Throw (Error ("OpenRouter API failed: " ++ statusText))
      | Generate.Ok content usage =>
          let aiMessage := Generate.trim content in
          Ret {| status := 200;
                 payload := Reply aiMessage [] (language body) (level body)
                                  (scenario body) (Generate.usageTokens usage) |}
      end)
    with
    | Ret response => response
    | Throw error =>
        {| status := 500;
           payload := Failure (if String.eqb (message error) ""
                               then "Error generating conversation"
                               else message error) |}
    end.

End Conversation.

(* ===================================================================== *)
(** ** Vocabulary of the specification *)
(* ===================================================================== *)

Module Spec.

Import Js Generate.

(** The three levels, under the names of the specification. *)
Definition Easy : string := "fácil".
Definition Medium : string := "medio".
Definition Hard : string := "difícil".

(** ToBoolean on the optional fields of a performance signal. *)
Definition falsyQ (x : option Q) : bool :=
  match x with
  | Some q => Qeq_bool q 0
  | None => true
  end.

Definition falsyZ (x : option Z) : bool :=
  match x with
  | Some z => (z =? 0)%Z
  | None => true
  end.

(** The trailing window of [n] elements, read from the end of the list. *)
Definition lastn {A} (n : nat) (l : list A) : list A := rev (firstn n (rev l)).

(** A record bears a topic when its [topic] is a non-empty string. *)
Definition bearing (q : History.QuestionRecord) : bool := truthyStr (History.topic q).

(** The filter as the claim words it: the window of 5 is taken over the
    topic-bearing records. *)
Definition recentTopics_claimed (questionHistory : option (list History.QuestionRecord)) : string :=
  match questionHistory with
  | Some h => join ", " (lastn 5 (filterBoolean (map History.topic h)))
  | None => ""
  end.

(** A correctly answered record of level [medio] with topic [t]. *)
Definition item (t : option string) : History.QuestionRecord :=
  {| History.topic := t; History.difficulty := Some "medio"; History.correct := true |}.

(** A record of level [d], answered correctly or not, without topic. *)
Definition answer (d : option string) (c : bool) : History.QuestionRecord :=
  {| History.topic := None; History.difficulty := d; History.correct := c |}.

(** The validation accepts a payload when it does not throw. *)
Definition accepted (questionData : json) : bool :=
  match validate questionData with
  | Ret _ => true
  | Throw _ => false
  end.

Definition isString (v : json) : bool :=
  match v with
  | JStr _ => true
  | _ => false
  end.

Definition isInteger (q : Q) : bool := (Zpos (Qden (Qred q)) =? 1)%Z.

(** The schema as the claim words it: [question] a non-empty string,
    [options] exactly 4 strings, [correctIndex] an integer from 0 to 3. *)
Definition schema_claimed (questionData : json) : bool :=
  match questionData with
  | JObj fields =>
      match assoc "question" fields with
      | Some (JStr s) => negb (String.eqb s "")
      | _ => false
      end
      && match assoc "options" fields with
         | Some (JArr l) => (List.length l =? 4)%nat && forallb isString l
         | _ => false
         end
      && match assoc "correctIndex" fields with
         | Some (JNum q) => isInteger q && Qle_bool 0 q && Qle_bool q 3
         | _ => false
         end
  | _ => false
  end.

(** The schema the code checks: an object with a truthy [question], an
    array [options] and a [correctIndex] that is not [undefined]. *)
Definition schema_checked (questionData : json) : bool :=
  match questionData with
  | JObj fields =>
      truthy (assoc "question" fields)
      && isArray (assoc "options" fields)
      && match assoc "correctIndex" fields with
         | Some _ => true
         | None => false
         end
  | _ => false
  end.

(** A sample payload with the given [options] and [correctIndex]. *)
Definition sample (options : list json) (correctIndex : option json) : json :=
  JObj ([("question", JStr "2 + 2 = ?"); ("options", JArr options)]
        ++ match correctIndex with
           | Some i => [("correctIndex", i)]
           | None => []
           end).

(** The code units of an ASCII literal. *)
Definition lit (s : string) : text :=
  map (fun c => N.of_nat (Ascii.nat_of_ascii c)) (list_ascii_of_string s).

(** [contains pat s]: the pattern [pat] occurs in [s]. *)
Fixpoint contains (pat s : text) : bool :=
  match after pat s with
  | Some _ => true
  | None => match s with
            | [] => false
            | _ :: s' => contains pat s'
            end
  end.

(** A stand-in for [JSON.parse] in examples: it reads the text [null] and
    throws on any other. *)
Definition parse_null (t : text) : result json :=
  match after (lit "null") t with
  | Some [] => Ret JNull
  | _ => Throw (SyntaxError "Unexpected token")
  end.

(** The provider text fails the inner [try] block: it does not parse, or
    it parses to a payload that the validation refuses. *)
Definition rejected (JSON_parse : text -> result json) (aiContent : text) : Prop :=
  (exists e, JSON_parse (jsonContent aiContent) = Throw e) \/
  (exists v, JSON_parse (jsonContent aiContent) = Ret v /\ schema_checked v = false).


Definition twoTicks (s : text) : bool :=
  match s with
  | a :: b :: _ => N.eqb backtick a && N.eqb backtick b
  | _ => false
  end.

(** The response to a provider text that fails the inner [try] block: it
    is made of the environment alone. *)
Definition invalid_format (env : Env) : Response :=
  json_500
    (Failure "AI generated invalid response format"
             (match NODE_ENV env with
              | Some mode => if String.eqb mode "development"
                             then Some "Error: AI generated invalid response format"
                             else None
              | None => None
              end)).

(** What the handler sends, and what it writes to the console. *)
Definition sent (m : M Response) : result Response := snd m.
Definition console (m : M Response) : list Logged := fst m.

(** The level a record is tallied under: [q.difficulty || 'medio']. *)
Definition tier (q : History.QuestionRecord) : string :=
  orStr (History.difficulty q) "medio".

(** A record is levelled when it is tallied under one of the three levels. *)
Definition levelled (q : History.QuestionRecord) : bool :=
  existsb (String.eqb (tier q)) [Easy; Medium; Hard].

(** Attempts, and correct attempts, recorded for level [t] in a history. *)
Definition attempts (t : string) (h : list History.QuestionRecord) : Z :=
  Z.of_nat (List.length (filter (fun q => String.eqb (tier q) t) h)).

Definition corrects (t : string) (h : list History.QuestionRecord) : Z :=
  Z.of_nat (List.length (filter (fun q => String.eqb (tier q) t && History.correct q) h)).

(** The tally of three levels, and a level's statistics advanced by the
    attempts of a history. *)
Definition table (s1 s2 s3 : Analytics.Stats.t) : Analytics.Tally :=
  [(Easy, s1); (Medium, s2); (Hard, s3)].

Definition bump (t : string) (s : Analytics.Stats.t)
           (h : list History.QuestionRecord) : Analytics.Stats.t :=
  {| Analytics.Stats.correct := Analytics.Stats.correct s + corrects t h;
     Analytics.Stats.total := Analytics.Stats.total s + attempts t h |}.

(** The accuracy of a level, in percent, as the loop computes it, and the
    two tests of the loop. *)
Definition percent (s : Analytics.Stats.t) : Q :=
  (inject_Z (Analytics.Stats.correct s) / inject_Z (Analytics.Stats.total s)) * 100.

Definition strong (e : string * Analytics.Stats.t) : bool :=
  (Analytics.Stats.total (snd e) >? 0)%Z && geb (percent (snd e)) 75.

Definition weak (e : string * Analytics.Stats.t) : bool :=
  (Analytics.Stats.total (snd e) >? 0)%Z && ltb (percent (snd e)) 50.

(** A level that the tally cannot take: neither one of the three levels,
    nor a name that [byDifficulty] inherits, nor one of the two names
    that a record of difficulty [__proto__] can make it inherit. *)
Definition unknown (k : string) : bool :=
  negb (existsb (String.eqb k) [Easy; Medium; Hard])
  && negb (existsb (String.eqb k) Analytics.inherited)
  && negb (existsb (String.eqb k) ["total"; "correct"]).

(** The mean weight of a history, before [toFixed(1)]. *)
Definition meanWeight (h : list History.QuestionRecord) : Q :=
  inject_Z (Analytics.sum (map Analytics.weight h)) / inject_Z (Z.of_nat (List.length h)).

(** The speech relay has a credential; the provider delivers audio. *)
Definition credential (env : Speak.Env) : bool :=
  truthyStr (Speak.OPENAI_API_KEY env) || truthyStr (Speak.OPENROUTER_API_KEY env).

Definition delivered (tts : Speak.Tts) : bool :=
  match tts with
  | Speak.Ok _ => true
  | _ => false
  end.

(** The levels listed in an array of areas. *)
Definition levels (areas : list Analytics.Area.t) : list string :=
  map Analytics.Area.level areas.

(** The order of the levels: Easy below Medium below Hard. *)
Definition rank (level : string) : Z :=
  if String.eqb level Easy then 0
  else if String.eqb level Medium then 1
  else if String.eqb level Hard then 2
  else 1.

(** The subjects that [competencyMap] lists. *)
Definition subjects : list string := map fst competencyMap.

(** The entry that the classification pushes for a level. *)
Definition area (e : string * Analytics.Stats.t) : Analytics.Area.t :=
  {| Analytics.Area.level := fst e;
     Analytics.Area.accuracy := round (percent (snd e)) |}.

(** The point of the learning curve for a record. *)
Definition outcome (q : History.QuestionRecord) : Z * option string :=
  (if History.correct q then 1%Z else 0%Z, History.difficulty q).

Definition shown (p : Analytics.Point.t) : Z * option string :=
  (Analytics.Point.correct p, Analytics.Point.difficulty p).

(** The last code unit of a text. *)
Definition lastUnit (s : text) : option N := hd_error (rev s).

(** The roles a turn of the history may take. *)
Definition dialogueRole (m : Conversation.Message) : bool :=
  String.eqb (Conversation.role m) "user" || String.eqb (Conversation.role m) "assistant".

Definition isNull (v : json) : bool :=
  match v with
  | JNull => true
  | _ => false
  end.

(** A stand-in for [JSON.parse] in examples: it reads the text [known] as
    the value [v] and throws on any other. *)
Definition parse_only (known : text) (v : json) (t : text) : result json :=
  match after known t with
  | Some [] => Ret v
  | _ => Throw (SyntaxError "Unexpected token")
  end.

(** The guards of the generation handler are passed: [level] and
    [subject] are truthy and the provider key is configured. *)
Definition guarded (env : Env) (body : Body) : bool :=
  truthy (level body) && truthy (subject body)
  && truthyStr (OPENROUTER_API_KEY env).

(** The metadata of a successful generation. *)
Definition metadata_of (env : Env) (body : Body) (usage : option json) : Metadata :=
  {| md_aiModel := "claude-3.5-sonnet";
     md_targetDifficulty := targetDifficulty (performance body);
     md_adaptiveReason := adaptiveReason (performance body);
     md_timestamp := now env;
     md_usageTokens := usageTokens usage |}.

(** The body is one whose [level] and [subject] can be printed into the
    prompt. *)
Definition printed (body : Body) : bool :=
  interpolates (level body) && interpolates (subject body).

(** The error thrown on a value that cannot be printed. *)
Definition unprintable : exn := TypeError "Cannot convert object to primitive value".

(** The [details] member of an error response of the generation. *)
Definition details_of (env : Env) (error : exn) : option string :=
  match NODE_ENV env with
  | Some mode => if String.eqb mode "development" then Some (toString error) else None
  | None => None
  end.

(** The tally of a history in closed form, and the summary built on it. *)
Definition counted (h : list History.QuestionRecord) : Analytics.Tally :=
  table {| Analytics.Stats.correct := corrects Easy h;
           Analytics.Stats.total := attempts Easy h |}
        {| Analytics.Stats.correct := corrects Medium h;
           Analytics.Stats.total := attempts Medium h |}
        {| Analytics.Stats.correct := corrects Hard h;
           Analytics.Stats.total := attempts Hard h |}.

Definition point (q : History.QuestionRecord) (idx : Z) : Analytics.Point.t :=
  {| Analytics.Point.question := idx + 1;
     Analytics.Point.correct := if History.correct q then 1 else 0;
     Analytics.Point.difficulty := History.difficulty q |}.

Definition summary_of (h : list History.QuestionRecord) : Analytics.Summary.t :=
  let n := Z.of_nat (List.length h) in
  let c := Z.of_nat (List.length (filter History.correct h)) in
  {| Analytics.Summary.totalQuestions := n;
     Analytics.Summary.accuracy :=
       round (percent {| Analytics.Stats.correct := c; Analytics.Stats.total := n |});
     Analytics.Summary.correct := c;
     Analytics.Summary.incorrect := n - c;
     Analytics.Summary.averageDifficulty := Analytics.toFixed1 (meanWeight h);
     Analytics.Summary.byDifficulty := counted h;
     Analytics.Summary.strengthAreas := map area (filter strong (counted h));
     Analytics.Summary.improvementAreas := map area (filter weak (counted h));
     Analytics.Summary.learningCurve := Analytics.mapi point 0 (lastn 10 h);
     Analytics.Summary.currentStreak := Analytics.trailing (rev h) |}.

(** A history of seven answers, for examples. *)
Definition answers : list History.QuestionRecord :=
  [ answer (Some "fácil") false; answer (Some "fácil") false;
    answer (Some "medio") true; answer (Some "difícil") false;
    answer None true; answer (Some "medio") true; answer (Some "medio") true ].

(** The history of a conversation, an absent one counting as empty. *)
Definition dialogue (body : Conversation.Body) : list json :=
  match Conversation.conversationHistory body with
  | Some history => history
  | None => []
  end.

(** What a turn of the history becomes in [messages]: the role [user] for
    an item whose [role] is the string [user] and [assistant] for any
    other, with the [content] of the item. *)
Definition saysUser (msg : json) : bool :=
  match msg with
  | JObj fields =>
      match assoc "role" fields with
      | Some (JStr x) => String.eqb x "user"
      | _ => false
      end
  | _ => false
  end.

Definition contentOf (msg : json) : option json :=
  match msg with
  | JObj fields => assoc "content" fields
  | _ => None
  end.

Definition turnOf (msg : json) : Conversation.Message :=
  {| Conversation.role := if saysUser msg then "user" else "assistant";
     Conversation.content := contentOf msg |}.

(** The message of the current user turn, when there is one. *)
Definition current (body : Conversation.Body) : list Conversation.Message :=
  if Conversation.isFirstMessage body then []
  else [ {| Conversation.role := "user";
            Conversation.content := option_map JStr (Conversation.userMessage body) |} ].

(** The required fields of a conversation request are truthy. *)
Definition required (body : Conversation.Body) : bool :=
  truthyStr (Conversation.language body) && truthyStr (Conversation.level body)
  && truthyStr (Conversation.scenario body).

(** A turn of a dialogue, for examples. *)
Definition said (who what : string) : json :=
  JObj [("role", JStr who); ("content", JStr what)].

(** The voice of a speech request: [voice = 'nova'] by default. *)
Definition voiceOf (body : Speak.Body) : json :=
  match Speak.voice body with
  | Some v => v
  | None => JStr "nova"
  end.

End Spec.

(* ===================================================================== *)
(** ** Properties of the difficulty estimator and of the rationale *)
(* ===================================================================== *)

Module EstimatorProps.

Import Js Generate Spec.

Lemma gtb_true (a b : Q) : gtb a b = true <-> (b < a)%Q.
Proof.
  unfold gtb. rewrite negb_true_iff.
  split; intros H.
  - apply Qnot_le_lt. intros Hle. apply Qle_bool_iff in Hle. congruence.
  - destruct (Qle_bool a b) eqn:E; [|reflexivity].
    apply Qle_bool_iff in E. exfalso. exact (Qlt_not_le _ _ H E).
Qed.

Lemma ltb_true (a b : Q) : ltb a b = true <-> (a < b)%Q.
Proof. exact (gtb_true b a). Qed.

(** The three-way rule, on the values the handler computes: [avgAccuracy]
    and [streak] after the defaults. *)
Lemma targetDifficulty_rule (performance : option Performance) :
  let a := avgAccuracy performance in
  let s := streak' performance in
  ((0.8 < a)%Q /\ (3 <= s)%Z -> targetDifficulty performance = Hard) /\
  (~ ((0.8 < a)%Q /\ (3 <= s)%Z) -> ((a < 0.5)%Q \/ (s < 0)%Z) ->
   targetDifficulty performance = Easy) /\
  (~ ((0.8 < a)%Q /\ (3 <= s)%Z) -> ~ ((a < 0.5)%Q \/ (s < 0)%Z) ->
   targetDifficulty performance = Medium).
Proof.
  intros a s. unfold targetDifficulty. fold a s.
  destruct (gtb a 0.8) eqn:Eg; destruct (3 <=? s)%Z eqn:Es;
    destruct (ltb a 0.5) eqn:El; destruct (s <? 0)%Z eqn:En; simpl;
    try apply gtb_true in Eg; try apply ltb_true in El;
    try apply Z.leb_le in Es; try apply Z.ltb_lt in En;
    repeat split; intros; try reflexivity;
    try (exfalso; tauto);
    try (exfalso; lia).
  all: try (assert (Hn : ~ (0.8 < a)%Q)
              by (intros Hc; apply gtb_true in Hc; congruence)).
  all: try (assert (Hm : ~ (a < 0.5)%Q)
              by (intros Hc; apply ltb_true in Hc; congruence)).
  all: try apply Z.leb_gt in Es; try apply Z.ltb_ge in En.
  all: try (exfalso; intuition lia).
Qed.

(** On a signal whose accuracy is present and not zero and whose streak is
    present, the rule reads on the fields themselves. *)
Lemma targetDifficulty_rule_fields (a : Q) (s : Z) :
  ~ (a == 0)%Q ->
  let performance := Some {| accuracy := Some a; streak := Some s |} in
  avgAccuracy performance = a /\ streak' performance = s.
Proof.
  intros Ha performance. unfold performance, avgAccuracy, streak', orQ, orZ. simpl.
  split.
  - destruct (Qeq_bool a 0) eqn:E; [|reflexivity].
    apply Qeq_bool_iff in E. contradiction.
  - destruct (s =? 0)%Z eqn:E; [|reflexivity].
    apply Z.eqb_eq in E. symmetry. exact E.
Qed.

(** The boundaries: an accuracy of exactly 0.8 never yields Hard, and with
    a streak of exactly 0 only the accuracy can yield Easy. *)
Lemma targetDifficulty_boundaries (a : Q) (s : Z) :
  targetDifficulty (Some {| accuracy := Some 0.8; streak := Some s |}) <> Hard /\
  (targetDifficulty (Some {| accuracy := Some a; streak := Some 0%Z |}) = Easy ->
   (avgAccuracy (Some {| accuracy := Some a; streak := Some 0%Z |}) < 0.5)%Q).
Proof.
  split.
  - unfold targetDifficulty. cbv zeta.
    replace (avgAccuracy (Some {| accuracy := Some 0.8; streak := Some s |}))
      with 0.8%Q by reflexivity.
    replace (gtb 0.8 0.8) with false by reflexivity.
    replace (ltb 0.8 0.5) with false by reflexivity.
    cbn [andb orb]. destruct (_ <? 0)%Z; discriminate.
  - unfold targetDifficulty. cbv zeta.
    replace (streak' (Some {| accuracy := Some a; streak := Some 0%Z |}))
      with 0%Z by reflexivity.
    replace (3 <=? 0)%Z with false by reflexivity.
    replace (0 <? 0)%Z with false by reflexivity.
    rewrite andb_false_r, orb_false_r.
    destruct (ltb _ 0.5) eqn:E; [|discriminate].
    intros _. apply ltb_true. exact E.
Qed.

(** C1 (the claim holds of the specification, not of the code): a signal
    with accuracy exactly 0 and streak 0 meets the Easy rule of the claim
    ([0 < 0.5], Hard rule not met), and yet the estimator answers Medium,
    because [performance?.accuracy || 0.5] replaces the falsy 0 by 0.5. *)
Theorem C1_zero_accuracy_yields_medium :
  let performance := Some {| accuracy := Some 0; streak := Some 0%Z |} in
  (0 < 0.5)%Q /\
  gtb 0 0.8 && (3 <=? 0)%Z = false /\
  avgAccuracy performance = 0.5 /\
  targetDifficulty performance = Medium /\
  String.eqb Medium Easy = false.
Proof. repeat split. Qed.

(** C4 (the claim holds of the specification, not of the code): the
    rationale looks at the accuracy alone.  With accuracy 0.9 and streak 0
    the target is Medium while the rationale announces a raised
    difficulty; with accuracy 0.6 and streak -1 the target is Easy while
    the rationale announces a maintained level. *)
Theorem C4_rationale_ignores_streak :
  let high := Some {| accuracy := Some 0.9; streak := Some 0%Z |} in
  let losing := Some {| accuracy := Some 0.6; streak := Some (-1)%Z |} in
  (targetDifficulty high = Medium /\
   adaptiveReason high = "Alto rendimiento - aumentando dificultad") /\
  (targetDifficulty losing = Easy /\
   adaptiveReason losing = "Rendimiento estable - manteniendo nivel").
Proof. simpl. repeat split. Qed.

(** Where the streak is at least 3, rationale and target do agree. *)
Lemma adaptiveReason_agrees_from_streak_3 (performance : option Performance) :
  (3 <= streak' performance)%Z ->
  (targetDifficulty performance = Hard /\
   adaptiveReason performance = "Alto rendimiento - aumentando dificultad") \/
  (targetDifficulty performance = Easy /\
   adaptiveReason performance = "Bajo rendimiento - reduciendo dificultad") \/
  (targetDifficulty performance = Medium /\
   adaptiveReason performance = "Rendimiento estable - manteniendo nivel").
Proof.
  intros Hs. unfold targetDifficulty, adaptiveReason.
  apply Z.leb_le in Hs. rewrite Hs.
  assert (Hn : (streak' performance <? 0)%Z = false).
  { apply Z.ltb_ge. apply Z.leb_le in Hs. lia. }
  rewrite Hn.
  destruct (gtb (avgAccuracy performance) 0.8); simpl; [left; split; reflexivity|].
  destruct (ltb (avgAccuracy performance) 0.5); simpl;
    [right; left | right; right]; split; reflexivity.
Qed.

(** C10: every falsy field takes its default, not only an absent one.  A
    falsy accuracy (absent, or present and equal to 0) is replaced by 0.5,
    and then a streak of 0, 1 or 2 yields Medium, not Easy; a falsy streak
    (absent or 0) is replaced by 0. *)
Theorem C10_falsy_fields_take_defaults (p : Performance) :
  (falsyQ (accuracy p) = true ->
     avgAccuracy (Some p) = 0.5 /\
     (forall s, streak p = Some s -> (0 <= s <= 2)%Z ->
                targetDifficulty (Some p) = Medium)) /\
  (falsyZ (streak p) = true -> streak' (Some p) = 0%Z).
Proof.
  split.
  - intros Hf.
    assert (Ha : avgAccuracy (Some p) = 0.5).
    { unfold avgAccuracy, orQ. simpl. unfold falsyQ in Hf.
      destruct (accuracy p) as [q|]; [rewrite Hf|]; reflexivity. }
    split; [exact Ha|].
    intros s Hs [Hlo Hhi]. unfold targetDifficulty. rewrite Ha.
    replace (gtb 0.5 0.8) with false by reflexivity.
    replace (ltb 0.5 0.5) with false by reflexivity.
    cbn [andb orb].
    assert (Hz : (0 <= streak' (Some p))%Z).
    { unfold streak', orZ. simpl. rewrite Hs. destruct (s =? 0)%Z; lia. }
    destruct (streak' (Some p) <? 0)%Z eqn:E; [|reflexivity].
    apply Z.ltb_lt in E. lia.
  - intros Hf. unfold streak', orZ. simpl. unfold falsyZ in Hf.
    destruct (streak p) as [z|]; [rewrite Hf|]; reflexivity.
Qed.

(** C10 at accuracy 0 and streak 2, and at streak 0. *)
Lemma C10_witness :
  let p := {| accuracy := Some 0; streak := Some 2%Z |} in
  let p0 := {| accuracy := None; streak := Some 0%Z |} in
  falsyQ (accuracy p) = true /\
  avgAccuracy (Some p) = 0.5 /\
  targetDifficulty (Some p) = Medium /\
  falsyZ (streak p0) = true /\
  streak' (Some p0) = 0%Z.
Proof.
  intros p p0.
  pose proof (C10_falsy_fields_take_defaults p) as [H1 _].
  pose proof (C10_falsy_fields_take_defaults p0) as [_ H2].
  specialize (H1 eq_refl). destruct H1 as [Ha Ht].
  split; [reflexivity|].
  split; [exact Ha|].
  split; [apply (Ht 2%Z); [reflexivity|lia]|].
  split; [reflexivity|].
  apply H2. reflexivity.
Defined.

End EstimatorProps.

(* ===================================================================== *)
(** ** Properties of the topic-history filter *)
(* ===================================================================== *)

Module TopicProps.

Import Js Generate Spec.

Lemma lastn_skipn {A} (n : nat) (l : list A) :
  lastn n l = skipn (List.length l - n) l.
Proof. unfold lastn. rewrite firstn_rev, rev_involutive. reflexivity. Qed.

Lemma slice_negative {A} (n : nat) (l : list A) :
  (0 < n)%nat -> slice (- Z.of_nat n) l = lastn n l.
Proof.
  intros Hn. rewrite lastn_skipn. unfold slice.
  assert (E : (- Z.of_nat n <? 0)%Z = true) by (apply Z.ltb_lt; lia).
  rewrite E. f_equal. lia.
Qed.

Lemma lastn_app_exact {A} (n : nat) (a b : list A) :
  List.length b = n -> lastn n (a ++ b) = b.
Proof.
  intros Hb. rewrite lastn_skipn, length_app, Hb.
  replace (List.length a + n - n)%nat with (List.length a + 0)%nat by lia.
  rewrite skipn_app, Nat.add_0_r, skipn_all.
  replace (List.length a - List.length a)%nat with 0%nat by lia.
  reflexivity.
Qed.

Lemma lastn_short {A} (n : nat) (l : list A) :
  (List.length l <= n)%nat -> lastn n l = l.
Proof.
  intros Hl. rewrite lastn_skipn.
  replace (List.length l - n)%nat with 0%nat by lia. reflexivity.
Qed.

Lemma lastn_length {A} (n : nat) (l : list A) :
  List.length (lastn n l) = Nat.min n (List.length l).
Proof. rewrite lastn_skipn, length_skipn. lia. Qed.

Lemma filterBoolean_app (a b : list (option string)) :
  filterBoolean (a ++ b) = filterBoolean a ++ filterBoolean b.
Proof. unfold filterBoolean. apply flat_map_app. Qed.

Lemma filterBoolean_length (l : list (option string)) :
  (List.length (filterBoolean l) <= List.length l)%nat.
Proof.
  induction l as [|[s|] l IH]; simpl; [lia| |lia].
  destruct (String.eqb s ""); simpl; lia.
Qed.

Lemma filterBoolean_bearing (l : list History.QuestionRecord) :
  forallb bearing l = true ->
  List.length (filterBoolean (map History.topic l)) = List.length l.
Proof.
  induction l as [|q l IH]; simpl; [reflexivity|].
  intros H. apply andb_true_iff in H as [Hq Hl].
  unfold bearing, truthyStr in Hq.
  destruct (History.topic q) as [s|]; [|discriminate].
  destruct (String.eqb s ""); [discriminate|].
  simpl. rewrite (IH Hl). reflexivity.
Qed.

(** C5, as the claim words it, fails: of six records of which the last has
    no topic, the code keeps the four topics found among the last five
    records, where the claim promises the last five topics. *)
Lemma C5_counterexample :
  let h := [item (Some "a"); item (Some "b"); item (Some "c");
            item (Some "d"); item (Some "e"); item None] in
  recentTopics (Some h) = "b, c, d, e" /\
  recentTopics_claimed (Some h) = "a, b, c, d, e" /\
  recentTopics (Some h) <> recentTopics_claimed (Some h).
Proof. simpl. repeat split. discriminate. Qed.

(** C5, amended: the filter returns the topics found among the last 5
    records of the history (at most 5, in the original order, records
    without a topic omitted), joined by a comma and a space; where each of
    these last records bears a topic, that is the string of the claim (for
    7 records with topics: the last 5 topics); an absent or empty history
    yields the empty string. *)
Theorem C5_recentTopics_window_then_filter (h : list History.QuestionRecord) :
  let kept := filterBoolean (map History.topic (lastn 5 h)) in
  recentTopics (Some h) = join ", " kept /\
  (List.length kept <= 5)%nat /\
  (forallb bearing (lastn 5 h) = true ->
   recentTopics (Some h) = recentTopics_claimed (Some h)) /\
  recentTopics None = "" /\
  recentTopics (Some []) = "".
Proof.
  intros kept.
  assert (Hs : slice (-5) h = lastn 5 h) by (apply (slice_negative 5); lia).
  split; [unfold recentTopics; rewrite Hs; reflexivity|].
  split.
  { unfold kept. etransitivity; [apply filterBoolean_length|].
    rewrite length_map, lastn_length. lia. }
  split; [|split; reflexivity].
  intros Hb. unfold recentTopics, recentTopics_claimed. rewrite Hs. f_equal.
  pose proof (filterBoolean_bearing _ Hb) as Hlen.
  rewrite lastn_length in Hlen.
  rewrite <- (firstn_skipn (List.length h - 5) h) at 2.
  rewrite map_app, filterBoolean_app.
  rewrite <- lastn_skipn.
  destruct (Nat.le_gt_cases 5 (List.length h)) as [Hge|Hlt].
  - rewrite lastn_app_exact; [reflexivity|]. rewrite Hlen. lia.
  - replace (List.length h - 5)%nat with 0%nat by lia. simpl.
    symmetry. apply lastn_short. rewrite Hlen. lia.
Qed.

(** C5 on seven records that all bear a topic. *)
Lemma C5_witness :
  let h := [item (Some "a"); item (Some "b"); item (Some "c"); item (Some "d");
            item (Some "e"); item (Some "f"); item (Some "g")] in
  forallb bearing (lastn 5 h) = true /\
  recentTopics (Some h) = recentTopics_claimed (Some h).
Proof.
  intros h. split; [reflexivity|].
  apply (C5_recentTopics_window_then_filter h). reflexivity.
Defined.

End TopicProps.

(* ===================================================================== *)
(** ** Properties of the payload validation *)
(* ===================================================================== *)

Module ValidatorProps.

Import Js Generate Spec.

(** C2, as the claim words it, fails: payloads with 3 and with 5 options
    violate the schema of the claim and pass the validation. *)
Lemma C2_counterexample :
  let three := sample [JStr "3"; JStr "4"; JStr "5"] (Some (JNum 1)) in
  let five := sample [JStr "1"; JStr "2"; JStr "3"; JStr "4"; JStr "5"] (Some (JNum 3)) in
  (schema_claimed three = false /\ validate three = Ret three) /\
  (schema_claimed five = false /\ validate five = Ret five).
Proof. repeat split. Qed.

Lemma validate_checked (questionData : json) :
  schema_checked questionData = true -> validate questionData = Ret questionData.
Proof.
  destruct questionData as [| | | | |fields]; simpl; try discriminate.
  unfold validate; simpl. intros H.
  apply andb_true_iff in H as [H Hc]. apply andb_true_iff in H as [Hq Ho].
  rewrite Hq, Ho. simpl.
  destruct (assoc "correctIndex" fields); [reflexivity|discriminate].
Qed.

Lemma validate_unchecked (questionData : json) :
  schema_checked questionData = false -> exists e, validate questionData = Throw e.
Proof.
  destruct questionData as [| | | | |fields]; unfold validate; simpl;
    try (intros _; eexists; reflexivity).
  intros H.
  destruct (truthy (assoc "question" fields)); simpl in *; [|eexists; reflexivity].
  destruct (isArray (assoc "options" fields)); simpl in *; [|eexists; reflexivity].
  destruct (assoc "correctIndex" fields); [discriminate|eexists; reflexivity].
Qed.

Lemma claimed_checked (questionData : json) :
  schema_claimed questionData = true -> schema_checked questionData = true.
Proof.
  destruct questionData as [| | | | |fields]; simpl; try discriminate.
  intros H.
  apply andb_true_iff in H as [H Hc]. apply andb_true_iff in H as [Hq Ho].
  destruct (assoc "question" fields) as [[| | |s| |]|]; try discriminate.
  destruct (assoc "options" fields) as [[| | | |l|]|]; try discriminate.
  destruct (assoc "correctIndex" fields) as [[| |q| | |]|]; try discriminate.
  simpl. rewrite Hq. reflexivity.
Qed.

(** C2, amended: the validation rejects a parsed payload if and only if it
    is not an object with a truthy [question], an array [options] and a
    defined [correctIndex]; an accepted payload is passed on unchanged; a
    payload that meets the schema of the claim is accepted, and a payload
    without [correctIndex] is rejected.  (The length and the elements of
    [options], and the type and range of [correctIndex], are not
    looked at.) *)
Theorem C2_rejects_iff_unchecked (questionData : json) :
  (accepted questionData = false <-> schema_checked questionData = false) /\
  (accepted questionData = true -> validate questionData = Ret questionData) /\
  (schema_claimed questionData = true -> accepted questionData = true) /\
  (forall fields, questionData = JObj fields -> assoc "correctIndex" fields = None ->
                  accepted questionData = false).
Proof.
  assert (Hiff : accepted questionData = schema_checked questionData).
  { unfold accepted. destruct (schema_checked questionData) eqn:E.
    - rewrite (validate_checked _ E). reflexivity.
    - destruct (validate_unchecked _ E) as [e He]. rewrite He. reflexivity. }
  split; [rewrite Hiff; tauto|].
  split; [rewrite Hiff; apply validate_checked|].
  split; [rewrite Hiff; apply claimed_checked|].
  intros fields -> Hnone. rewrite Hiff. simpl. rewrite Hnone.
  apply andb_false_r.
Qed.

(** C2 on a payload without [correctIndex], and on a well-formed one. *)
Lemma C2_witness :
  let missing := sample [JStr "1"; JStr "2"; JStr "3"; JStr "4"] None in
  let good := sample [JStr "1"; JStr "2"; JStr "3"; JStr "4"] (Some (JNum 3)) in
  accepted missing = false /\
  (schema_claimed good = true /\ validate good = Ret good).
Proof.
  intros missing good. split.
  - eapply (C2_rejects_iff_unchecked missing); reflexivity.
  - split; [reflexivity|].
    apply (C2_rejects_iff_unchecked good).
    apply (C2_rejects_iff_unchecked good). reflexivity.
Defined.

End ValidatorProps.

(* ===================================================================== *)
(** ** Properties of the fence stripping *)
(* ===================================================================== *)

Module FenceProps.

Import Js Generate Spec.

#[local] Arguments N.eqb : simpl never.
#[local] Opaque replaceFence.

(** Case analysis on the tests for a backtick. *)
Ltac split_ticks :=
  repeat match goal with
         | |- context [N.eqb backtick ?x] =>
             destruct (N.eqb backtick x); simpl in *
         | H : context [N.eqb backtick ?x] |- _ =>
             destruct (N.eqb backtick x); simpl in *
         end;
  try congruence; try tauto.

(** *** The two equations of [replaceFence] *)


Lemma replaceFence_skip (tag : text) (c : N) (s : text) :
  matchAt tag (c :: s) = None ->
  replaceFence tag (c :: s) = c :: replaceFence tag s.
Proof.
  intros H. rewrite replaceFence_equation_2.
  destruct (Logic.inspect (matchAt tag (c :: s))) as [[r|] e].
  - congruence.
  - rewrite replaceFence_clause_2_equation_2. reflexivity.
Qed.

(** *** Prefixes and occurrences *)

Lemma after_app (p q s : text) :
  after (p ++ q) s = match after p s with
                     | Some r => after q r
                     | None => None
                     end.
Proof.
  revert s. induction p as [|a p IH]; intros s; simpl; [reflexivity|].
  destruct s as [|b s]; [reflexivity|].
  destruct (N.eqb a b); [apply IH|reflexivity].
Qed.

Lemma after_extend (pat a b r : text) :
  after pat a = Some r -> after pat (a ++ b) = Some (r ++ b).
Proof.
  revert a. induction pat as [|x pat IH]; intros a H; simpl in *.
  - injection H as <-. reflexivity.
  - destruct a as [|y a]; [discriminate|]. simpl.
    destruct (N.eqb x y); [apply IH; exact H|discriminate].
Qed.

Lemma matchAt_needs_fence (tag s : text) :
  after fence s = None -> matchAt tag s = None.
Proof.
  intros H. unfold matchAt. rewrite after_app, H. reflexivity.
Qed.

Lemma contains_cons (pat : text) (c : N) (s : text) :
  contains pat (c :: s) = false ->
  after pat (c :: s) = None /\ contains pat s = false.
Proof.
  simpl. destruct (after pat (c :: s)); [discriminate|]. auto.
Qed.

Lemma contains_cons_false (pat : text) (c : N) (s : text) :
  after pat (c :: s) = None -> contains pat s = false ->
  contains pat (c :: s) = false.
Proof.
  intros Hhead Htail.
  change (contains pat (c :: s))
    with (match after pat (c :: s) with
          | Some _ => true
          | None => contains pat s
          end).
  rewrite Hhead. exact Htail.
Qed.

Lemma contains_suffix (pat a b : text) :
  contains pat (a ++ b) = false -> contains pat b = false.
Proof.
  induction a as [|x a IH]; simpl; [auto|].
  intros H. apply IH. apply (contains_cons pat x (a ++ b)). exact H.
Qed.

Lemma contains_prefix (pat a b : text) :
  contains pat (a ++ b) = false -> contains pat a = false.
Proof.
  induction a as [|x a IH]; intros H.
  - destruct (after pat []) as [r|] eqn:E.
    + apply (after_extend _ _ b) in E.
      destruct b; simpl in H; simpl in E; rewrite E in H; discriminate.
    + destruct pat; [discriminate|reflexivity].
  - change ((x :: a) ++ b) with (x :: a ++ b) in H.
    apply contains_cons in H as [Hhead Htail].
    destruct (after pat (x :: a)) as [r|] eqn:E.
    + apply (after_extend _ _ b) in E. simpl in E, Hhead. congruence.
    + simpl in E |- *. rewrite E. apply IH. exact Htail.
Qed.

Lemma after_fence_cons (c : N) (s : text) :
  after fence (c :: s) = None <-> N.eqb backtick c && twoTicks s = false.
Proof.
  unfold fence, twoTicks.
  destruct s as [|a [|b s]]; simpl;
    repeat match goal with
           | |- context [N.eqb backtick ?x] => destruct (N.eqb backtick x); simpl
           end;
    try tauto; split; discriminate.
Qed.

Lemma after_fence_nil : after fence [] = None.
Proof. reflexivity. Qed.




(** *** The result of the second replacement holds no fence *)

Lemma matchAt_plain (s : text) : matchAt [] s = option_map optLF (after fence s).
Proof. unfold matchAt. rewrite app_nil_r. reflexivity. Qed.

Lemma replaceFence_twoTicks (s : text) :
  twoTicks s = false -> twoTicks (replaceFence [] s) = false.
Proof.
  intros H.
  destruct s as [|a s]; [rewrite replaceFence_equation_1; reflexivity|].
  assert (Ha : matchAt [] (a :: s) = None).
  { apply matchAt_needs_fence, after_fence_cons.
    destruct s as [|b [|c s]]; simpl in *; split_ticks. }
  rewrite (replaceFence_skip _ _ _ Ha).
  destruct s as [|b s].
  { rewrite replaceFence_equation_1. reflexivity. }
  simpl in H.
  destruct (N.eqb backtick a) eqn:Ea; simpl in H.
  - assert (Hb : matchAt [] (b :: s) = None).
    { apply matchAt_needs_fence, after_fence_cons. rewrite H. reflexivity. }
    rewrite (replaceFence_skip _ _ _ Hb). simpl. rewrite Ea, H. reflexivity.
  - destruct (replaceFence [] (b :: s)) as [|x r]; simpl; [reflexivity|].
    rewrite Ea. reflexivity.
Qed.

Lemma replaceFence_no_fence (s : text) :
  contains fence (replaceFence [] s) = false.
Proof.
  enough (G : forall tag s, tag = [] -> contains fence (replaceFence tag s) = false)
    by (apply G; reflexivity).
  clear s.
  apply (replaceFence_elim
           (fun tag s r => tag = [] -> contains fence r = false)).
  - intros tag _. reflexivity.
  - intros tag c s' rest e IH _ Htag. apply IH. exact Htag.
  - intros tag c s' e IH _ Htag. subst tag.
    specialize (IH eq_refl).
    rewrite matchAt_plain in e.
    destruct (after fence (c :: s')) eqn:E; [discriminate|].
    apply after_fence_cons in E.
    apply contains_cons_false; [|exact IH].
    apply after_fence_cons.
    destruct (N.eqb backtick c); simpl in *; [|reflexivity].
    apply replaceFence_twoTicks. exact E.
Qed.

(** *** Trimming *)

Lemma trimStart_suffix (s : text) : exists a, s = a ++ trimStart s.
Proof.
  induction s as [|c s [a IH]]; simpl.
  - exists []. reflexivity.
  - destruct (isWhiteSpace c).
    + exists (c :: a). simpl. f_equal. exact IH.
    + exists []. reflexivity.
Qed.

Lemma trimEnd_prefix (s : text) : exists b, s = trimEnd s ++ b.
Proof.
  unfold trimEnd. destruct (trimStart_suffix (rev s)) as [a Ha].
  exists (rev a).
  rewrite <- rev_app_distr, <- Ha. symmetry. apply rev_involutive.
Qed.

Lemma trim_no_fence (s : text) :
  contains fence s = false -> contains fence (trim s) = false.
Proof.
  intros H. unfold trim.
  destruct (trimStart_suffix s) as [a Ha].
  destruct (trimEnd_prefix (trimStart s)) as [b Hb].
  rewrite Ha in H. apply contains_suffix in H.
  rewrite Hb in H. apply contains_prefix in H. exact H.
Qed.

Lemma trimStart_idem (s : text) : trimStart (trimStart s) = trimStart s.
Proof.
  induction s as [|c s IH]; simpl; [reflexivity|].
  destruct (isWhiteSpace c) eqn:E; [exact IH|].
  simpl. rewrite E. reflexivity.
Qed.

Lemma trimEnd_idem (s : text) : trimEnd (trimEnd s) = trimEnd s.
Proof.
  unfold trimEnd. rewrite rev_involutive, trimStart_idem. reflexivity.
Qed.

Lemma trimStart_head (s : text) :
  trimStart s = [] \/
  exists c t, trimStart s = c :: t /\ isWhiteSpace c = false.
Proof.
  induction s as [|c s IH]; simpl; [left; reflexivity|].
  destruct (isWhiteSpace c) eqn:E; [exact IH|].
  right. exists c, s. split; [reflexivity|exact E].
Qed.

Lemma trimStart_snoc (l : text) (c : N) :
  isWhiteSpace c = false -> exists u, trimStart (l ++ [c]) = u ++ [c].
Proof.
  intros Hc. induction l as [|x l [u IH]]; simpl.
  - rewrite Hc. exists []. reflexivity.
  - destruct (isWhiteSpace x).
    + exists u. exact IH.
    + exists (x :: l). reflexivity.
Qed.

Lemma trimEnd_head (c : N) (t : text) :
  isWhiteSpace c = false -> exists u, trimEnd (c :: t) = c :: u.
Proof.
  intros Hc. unfold trimEnd. simpl.
  destruct (trimStart_snoc (rev t) c Hc) as [u Hu].
  exists (rev u). rewrite Hu, rev_app_distr. reflexivity.
Qed.

Lemma trim_idem (s : text) : trim (trim s) = trim s.
Proof.
  unfold trim.
  destruct (trimStart_head s) as [E|[c [t [E Hc]]]]; rewrite E.
  - reflexivity.
  - destruct (trimEnd_head c t Hc) as [u Hu].
    rewrite Hu. simpl. rewrite Hc. rewrite <- Hu. apply trimEnd_idem.
Qed.



(** *** The claim *)




End FenceProps.

(* ===================================================================== *)
(** ** Properties of the error response of the generation *)
(* ===================================================================== *)

Module HandlerProps.

Import Js Generate Spec.

#[local] Opaque replaceFence.

Section Rejection.

Variable JSON_parse : text -> result json.

(** A rejected text is one on which the inner [try] block throws. *)
Lemma rejected_throws (aiContent : text) :
  rejected JSON_parse aiContent <->
  exists e, parseBlock JSON_parse aiContent = Throw e.
Proof.
  unfold rejected, parseBlock.
  destruct (JSON_parse (jsonContent aiContent)) as [v|e0]; cbn [bind]; split.
  - intros [[e He]|[v' [Hv Hs]]]; [discriminate|].
    injection Hv as <-. apply ValidatorProps.validate_unchecked. exact Hs.
  - intros [e He]. right. exists v. split; [reflexivity|].
    destruct (schema_checked v) eqn:E; [|reflexivity].
    rewrite (ValidatorProps.validate_checked v E) in He. discriminate.
  - intros _. exists e0. reflexivity.
  - intros _. left. exists e0. reflexivity.
Qed.

(** The inner [catch] logs the provider text and throws the fixed error. *)
Lemma questionData_rejected (aiContent : text) :
  rejected JSON_parse aiContent ->
  questionData JSON_parse aiContent
  = ([error_failed_to_parse aiContent],
     Throw (Error "AI generated invalid response format")).
Proof.
  intros H. apply rejected_throws in H as [e He].
  unfold questionData, tryCatch. rewrite He. reflexivity.
Qed.

(** The prompt is built exactly for a body that can be printed. *)
Lemma systemPrompt_printed (body : Body) :
  systemPrompt (level body) (subject body)
  = ([], if printed body then Ret tt else Throw unprintable).
Proof.
  unfold systemPrompt, printed, interpolate.
  destruct (interpolates (subject body)), (interpolates (level body)); reflexivity.
Qed.

(** A body that cannot be printed stops the handler before the provider
    is called. *)
Lemma handler_unprintable (env : Env) (body : Body) (provider : Provider) :
  truthy (level body) = true -> truthy (subject body) = true ->
  truthyStr (OPENROUTER_API_KEY env) = true ->
  printed body = false ->
  handler JSON_parse env body provider
  = ([error_adaptive_generation unprintable],
     Ret (json_500 (Failure (message unprintable) (details_of env unprintable)))).
Proof.
  intros Hl Hs Hk Hp. unfold handler.
  rewrite Hl, Hs, Hk. cbn [negb orb].
  rewrite systemPrompt_printed, Hp. reflexivity.
Qed.

Lemma handler_rejected (env : Env) (body : Body) (content : text) (usage : option json) :
  truthy (level body) = true -> truthy (subject body) = true ->
  truthyStr (OPENROUTER_API_KEY env) = true ->
  printed body = true ->
  rejected JSON_parse (trim content) ->
  handler JSON_parse env body (Ok content usage)
  = ([log_generating (level body) (subject body) (targetDifficulty (performance body));
      error_failed_to_parse (trim content);
      error_adaptive_generation (Error "AI generated invalid response format")],
     Ret (invalid_format env)).
Proof.
  intros Hl Hs Hk Hp Hr. unfold handler.
  rewrite Hl, Hs, Hk. cbn [negb orb].
  rewrite systemPrompt_printed, Hp. simpl.
  unfold bindM at 1. simpl.
  rewrite (questionData_rejected _ Hr). simpl.
  unfold invalid_format, toString. simpl.
  destruct (NODE_ENV env) as [mode|]; [|reflexivity].
  destruct (String.eqb mode "development"); reflexivity.
Qed.

Lemma handler_guarded (env : Env) (body : Body) (p1 p2 : Provider) :
  truthy (level body) && truthy (subject body)
  && truthyStr (OPENROUTER_API_KEY env) = false ->
  handler JSON_parse env body p1 = handler JSON_parse env body p2.
Proof.
  intros H. unfold handler.
  destruct (truthy (level body)); simpl in *; [|reflexivity].
  destruct (truthy (subject body)); simpl in *; [|reflexivity].
  rewrite H. reflexivity.
Qed.

End Rejection.

(** C6: two provider texts that both fail, each either at parsing or at
    validation, get the same response.  Past the guards of the handler,
    when the prompt can be built from the body, that response is the
    fixed one, status 500 with the generic message (and, in development
    mode, the same message once more), which is made of the environment
    alone, while the provider text goes to the console; when [level] or
    [subject] cannot be printed into the prompt, the handler stops before
    the provider is called, and neither the response nor the console
    holds any provider text. *)
Theorem C6_rejection_response_is_generic
        (JSON_parse : text -> result json) (env : Env) (body : Body)
        (content1 content2 : text) (usage1 usage2 : option json) :
  rejected JSON_parse (trim content1) ->
  rejected JSON_parse (trim content2) ->
  sent (handler JSON_parse env body (Ok content1 usage1))
  = sent (handler JSON_parse env body (Ok content2 usage2)) /\
  (truthy (level body) = true -> truthy (subject body) = true ->
   truthyStr (OPENROUTER_API_KEY env) = true ->
   (printed body = true ->
    sent (handler JSON_parse env body (Ok content1 usage1)) = Ret (invalid_format env) /\
    In (error_failed_to_parse (trim content1))
       (console (handler JSON_parse env body (Ok content1 usage1)))) /\
   (printed body = false ->
    sent (handler JSON_parse env body (Ok content1 usage1))
    = Ret (json_500 (Failure "Cannot convert object to primitive value"
                             (details_of env unprintable))) /\
    console (handler JSON_parse env body (Ok content1 usage1))
    = [error_adaptive_generation unprintable])).
Proof.
  intros H1 H2. split.
  - destruct (truthy (level body) && truthy (subject body)
              && truthyStr (OPENROUTER_API_KEY env)) eqn:G.
    + apply andb_true_iff in G as [G Hk]. apply andb_true_iff in G as [Hl Hs].
      destruct (printed body) eqn:Hp.
      * rewrite (handler_rejected JSON_parse env body content1 usage1 Hl Hs Hk Hp H1).
        rewrite (handler_rejected JSON_parse env body content2 usage2 Hl Hs Hk Hp H2).
        reflexivity.
      * rewrite !(handler_unprintable JSON_parse env body _ Hl Hs Hk Hp).
        reflexivity.
    + rewrite (handler_guarded JSON_parse env body
                               (Ok content1 usage1) (Ok content2 usage2) G).
      reflexivity.
  - intros Hl Hs Hk. split; intros Hp.
    + rewrite (handler_rejected JSON_parse env body content1 usage1 Hl Hs Hk Hp H1).
      split; [reflexivity|]. simpl. auto.
    + rewrite (handler_unprintable JSON_parse env body _ Hl Hs Hk Hp).
      split; reflexivity.
Qed.

(** C6 on a text that does not parse and a text that parses to [null]. *)
Lemma C6_witness :
  let env := {| OPENROUTER_API_KEY := Some "key"; NODE_ENV := Some "production";
                now := "2025-01-01T00:00:00.000Z" |} in
  let body := {| level := Some (JStr "ESO"); subject := Some (JStr "Lengua");
                 performance := None; questionHistory := None |} in
  rejected parse_null (trim (lit "not json")) /\
  rejected parse_null (trim (lit "null")) /\
  sent (handler parse_null env body (Ok (lit "not json") None))
  = sent (handler parse_null env body (Ok (lit "null") None)) /\
  sent (handler parse_null env body (Ok (lit "not json") None))
  = Ret (json_500 (Failure "AI generated invalid response format" None)).
Proof.
  intros env body.
  assert (H1 : rejected parse_null (trim (lit "not json")))
    by (left; exists (SyntaxError "Unexpected token"); vm_compute; reflexivity).
  assert (H2 : rejected parse_null (trim (lit "null")))
    by (right; exists JNull; split; vm_compute; reflexivity).
  destruct (C6_rejection_response_is_generic parse_null env body _ _ None None H1 H2)
    as [Hsame Hfixed].
  split; [exact H1|]. split; [exact H2|]. split; [exact Hsame|].
  destruct (Hfixed eq_refl eq_refl eq_refl) as [Hprinted _].
  apply Hprinted. reflexivity.
Defined.

End HandlerProps.

(* ===================================================================== *)
(** ** Properties of the analytics *)
(* ===================================================================== *)

Module AnalyticsProps.

Import Js Spec.
Import Analytics.

(** *** The tally *)

Lemma levelled_cases (q : History.QuestionRecord) :
  levelled q = true -> tier q = Easy \/ tier q = Medium \/ tier q = Hard.
Proof.
  unfold levelled. cbn [existsb].
  rewrite !orb_true_iff, !String.eqb_eq. intuition discriminate.
Qed.

Lemma attempts_cons (t : string) (q : History.QuestionRecord)
      (h : list History.QuestionRecord) :
  attempts t (q :: h)
  = ((if String.eqb (tier q) t then 1 else 0) + attempts t h)%Z.
Proof.
  unfold attempts. cbn [filter].
  destruct (String.eqb (tier q) t); cbn [List.length]; lia.
Qed.

Lemma corrects_cons (t : string) (q : History.QuestionRecord)
      (h : list History.QuestionRecord) :
  corrects t (q :: h)
  = ((if String.eqb (tier q) t && History.correct q then 1 else 0) + corrects t h)%Z.
Proof.
  unfold corrects. cbn [filter].
  destruct (String.eqb (tier q) t && History.correct q); cbn [List.length]; lia.
Qed.

Lemma stats_eq (c t c' t' : Z) :
  c = c' -> t = t' ->
  {| Stats.correct := c; Stats.total := t |} = {| Stats.correct := c'; Stats.total := t' |}.
Proof. intros -> ->. reflexivity. Qed.

(** One record advances the statistics of its own level. *)
Lemma tally_levelled (s1 s2 s3 : Stats.t) (proto : Proto.t)
      (q : History.QuestionRecord) :
  levelled q = true ->
  tally (table s1 s2 s3, proto) q
  = Ret (table (bump Easy s1 [q]) (bump Medium s2 [q]) (bump Hard s3 [q]), proto).
Proof.
  intros Hq. unfold tally. fold (tier q).
  unfold bump. rewrite !attempts_cons, !corrects_cons.
  destruct s1 as [c1 t1], s2 as [c2 t2], s3 as [c3 t3].
  destruct (levelled_cases q Hq) as [E|[E|E]]; rewrite E;
    destruct (History.correct q); cbn;
    unfold table; repeat f_equal; lia.
Qed.

Lemma bump_cons (t : string) (s : Stats.t) (q : History.QuestionRecord)
      (h : list History.QuestionRecord) :
  bump t (bump t s [q]) h = bump t s (q :: h).
Proof.
  unfold bump. simpl.
  rewrite (attempts_cons t q h), (corrects_cons t q h).
  rewrite (attempts_cons t q []), (corrects_cons t q []).
  apply stats_eq; unfold attempts, corrects; simpl; lia.
Qed.

(** The loop [forEach] leaves, for each level, the attempts and the
    correct attempts of the history. *)
Lemma forEach_tally (h : list History.QuestionRecord) (proto : Proto.t) :
  forall s1 s2 s3,
  forallb levelled h = true ->
  forEach tally (table s1 s2 s3, proto) h
  = Ret (table (bump Easy s1 h) (bump Medium s2 h) (bump Hard s3 h), proto).
Proof.
  induction h as [|q h IH]; intros s1 s2 s3 Hh.
  - simpl. unfold table, bump, attempts, corrects. simpl.
    destruct s1, s2, s3. simpl. rewrite !Z.add_0_r. reflexivity.
  - simpl in Hh. apply andb_true_iff in Hh as [Hq Hh].
    cbn [forEach]. rewrite (tally_levelled s1 s2 s3 proto q Hq). cbn [bind].
    rewrite (IH _ _ _ Hh). rewrite !bump_cons. reflexivity.
Qed.

(** *** The classification *)

Lemma classify_step (S I : list Area.t) (e : string * Stats.t) :
  levels (fst (classify (S, I) e)) = levels S ++ (if strong e then [fst e] else []) /\
  levels (snd (classify (S, I) e)) = levels I ++ (if weak e then [fst e] else []).
Proof.
  destruct e as [diff stats]. unfold classify, strong, weak, percent. simpl.
  destruct (Stats.total stats >? 0)%Z; simpl.
  - split.
    + destruct (geb _ 75); unfold levels; [rewrite map_app|rewrite app_nil_r]; reflexivity.
    + destruct (ltb _ 50); unfold levels; [rewrite map_app|rewrite app_nil_r]; reflexivity.
  - rewrite !app_nil_r. split; reflexivity.
Qed.

Lemma classify_all (T : Tally) :
  forall S I,
  levels (fst (fold_left classify T (S, I))) = levels S ++ map fst (filter strong T) /\
  levels (snd (fold_left classify T (S, I))) = levels I ++ map fst (filter weak T).
Proof.
  induction T as [|e T IH]; intros S I; cbn [fold_left filter map].
  - simpl. rewrite !app_nil_r. split; reflexivity.
  - destruct (classify (S, I) e) as [S' I'] eqn:E.
    destruct (IH S' I') as [H1 H2].
    destruct (classify_step S I e) as [G1 G2].
    rewrite E in G1, G2. simpl in G1, G2.
    rewrite H1, H2, G1, G2, <- !app_assoc.
    split; f_equal.
    + destruct (strong e); reflexivity.
    + destruct (weak e); reflexivity.
Qed.

(** *** The thresholds, on the counters *)

Lemma percent_le (k c t : Z) :
  (0 < t)%Z ->
  (inject_Z k <= percent {| Stats.correct := c; Stats.total := t |})%Q
  <-> (k * t <= 100 * c)%Z.
Proof.
  intros Ht. unfold percent. cbn [Stats.correct Stats.total].
  destruct t as [|p|p]; try lia.
  unfold Qle, Qdiv, Qmult, Qinv, inject_Z. cbn [Qnum Qden].
  rewrite ?Pos.mul_1_r, ?Pos.mul_1_l, ?Z.mul_1_r. lia.
Qed.

Lemma percent_ge_75 (c t : Z) :
  (0 < t)%Z ->
  geb (percent {| Stats.correct := c; Stats.total := t |}) 75 = true
  <-> (75 * t <= 100 * c)%Z.
Proof.
  intros Ht. unfold geb. rewrite Qle_bool_iff.
  apply (percent_le 75 c t Ht).
Qed.

Lemma percent_lt_50 (c t : Z) :
  (0 < t)%Z ->
  ltb (percent {| Stats.correct := c; Stats.total := t |}) 50 = true
  <-> (100 * c < 50 * t)%Z.
Proof.
  intros Ht. unfold ltb. rewrite negb_true_iff.
  pose proof (percent_le 50 c t Ht) as H.
  change (inject_Z 50) with 50%Q in H.
  rewrite <- Qle_bool_iff in H.
  destruct (Qle_bool 50 (percent {| Stats.correct := c; Stats.total := t |}));
    split; intros G; try reflexivity; try discriminate.
  - assert (50 * t <= 100 * c)%Z by (apply H; reflexivity). lia.
  - destruct (Z_lt_le_dec (100 * c) (50 * t)) as [L|L]; [exact L|].
    apply H in L. discriminate.
Qed.

(** *** The summary of a levelled history *)

Lemma In_filter_table (f : string * Stats.t -> bool) (s1 s2 s3 : Stats.t) (t : string) :
  In t (map fst (filter f (table s1 s2 s3))) <->
  (t = Easy /\ f (Easy, s1) = true) \/
  (t = Medium /\ f (Medium, s2) = true) \/
  (t = Hard /\ f (Hard, s3) = true).
Proof.
  unfold table. cbn [filter].
  destruct (f (Easy, s1)), (f (Medium, s2)), (f (Hard, s3)); simpl;
    intuition (subst; try discriminate; auto).
Qed.

Lemma summary_levelled (h : list History.QuestionRecord) :
  forallb levelled h = true ->
  exists analytics,
    summary h = Ret analytics /\
    Summary.byDifficulty analytics
    = table {| Stats.correct := corrects Easy h; Stats.total := attempts Easy h |}
            {| Stats.correct := corrects Medium h; Stats.total := attempts Medium h |}
            {| Stats.correct := corrects Hard h; Stats.total := attempts Hard h |} /\
    levels (Summary.strengthAreas analytics)
    = map fst (filter strong (Summary.byDifficulty analytics)) /\
    levels (Summary.improvementAreas analytics)
    = map fst (filter weak (Summary.byDifficulty analytics)) /\
    Summary.averageDifficulty analytics = toFixed1 (meanWeight h).
Proof.
  intros Hh. unfold summary.
  change byDifficulty0
    with (table {| Stats.correct := 0; Stats.total := 0 |}
                {| Stats.correct := 0; Stats.total := 0 |}
                {| Stats.correct := 0; Stats.total := 0 |}).
  rewrite (forEach_tally h shipped _ _ _ Hh). cbn [bind fst].
  match goal with
  | |- context [fold_left classify ?T ([], [])] =>
      pose proof (classify_all T [] []) as [H1 H2];
      destruct (fold_left classify T ([], [])) as [S I]
  end.
  eexists. split; [reflexivity|].
  cbn [Summary.byDifficulty Summary.strengthAreas Summary.improvementAreas
       Summary.averageDifficulty].
  split; [reflexivity|].
  split; [exact H1|]. split; [exact H2|].
  unfold meanWeight. rewrite length_map. reflexivity.
Qed.


(** *** A level the tally cannot take *)

Lemma put_keys (k : string) (v : Stats.t) (T : Tally) :
  map fst (put k v T) = map fst T.
Proof.
  induction T as [|[k' v'] T IH]; simpl; [reflexivity|].
  destruct (String.eqb k k'); simpl; [reflexivity|]. f_equal. exact IH.
Qed.

Lemma assoc_absent (k : string) (T : Tally) :
  existsb (String.eqb k) (map fst T) = false -> assoc k T = None.
Proof.
  induction T as [|[k' v'] T IH]; simpl; [reflexivity|].
  destruct (String.eqb k k'); simpl; [discriminate|exact IH].
Qed.

Lemma tally_keys (T T' : Tally) (proto proto' : Proto.t) (q : History.QuestionRecord) :
  tally (T, proto) q = Ret (T', proto') -> map fst T' = map fst T.
Proof.
  unfold tally. destruct (assoc _ T) as [stats|].
  - intros H. injection H as <- _. apply put_keys.
  - repeat match goal with
           | |- context [if ?b then _ else _] => destruct b
           end; intros H; try discriminate; injection H as <- _; reflexivity.
Qed.

Lemma tally_throws (state : Tally * Proto.t) (q : History.QuestionRecord) (e : exn) :
  tally state q = Throw e ->
  e = TypeError "Cannot read properties of undefined (reading 'total')".
Proof.
  unfold tally. destruct state as [T proto].
  destruct (assoc _ T) as [stats|]; [discriminate|].
  repeat match goal with
         | |- context [if ?b then _ else _] => destruct b
         end; intros H; try discriminate; injection H as <-; reflexivity.
Qed.

(** A level that is [unknown] is not one that the prototype can come to
    carry. *)
Lemma unknown_cases (k : string) :
  unknown k = true ->
  existsb (String.eqb k) [Easy; Medium; Hard] = false /\
  existsb (String.eqb k) inherited = false /\
  String.eqb k "__proto__" = false /\
  String.eqb k "total" = false /\
  String.eqb k "correct" = false.
Proof.
  unfold unknown. intros H.
  apply andb_true_iff in H as [H Hp]. apply andb_true_iff in H as [Hl Hi].
  apply negb_true_iff in Hl, Hi, Hp.
  split; [exact Hl|]. split; [exact Hi|].
  cbn [existsb] in Hp. apply orb_false_iff in Hp as [Ht Hp].
  apply orb_false_iff in Hp as [Hc _].
  split; [|split; assumption].
  unfold inherited in Hi. cbn [existsb] in Hi.
  repeat match type of Hi with
         | (String.eqb k "__proto__" || _)%bool = false =>
             apply orb_false_iff in Hi as [Hi _]; exact Hi
         | (_ || _)%bool = false => apply orb_false_iff in Hi as [_ Hi]
         end.
Qed.

(** One record of unknown level makes the whole loop throw. *)
Lemma forEach_tally_unknown (h : list History.QuestionRecord) :
  forall T proto,
  map fst T = [Easy; Medium; Hard] ->
  existsb (fun q => unknown (tier q)) h = true ->
  forEach tally (T, proto) h
  = Throw (TypeError "Cannot read properties of undefined (reading 'total')").
Proof.
  induction h as [|q h IH]; intros T proto HT Hh; [discriminate|].
  cbn [forEach existsb] in *.
  destruct (tally (T, proto) q) as [[T' proto']|e] eqn:E; cbn [bind].
  - apply orb_true_iff in Hh as [Hq|Hh].
    + exfalso. destruct (unknown_cases _ Hq) as (Hl & Hi & Hp & Ht & Hc).
      unfold tally in E. fold (tier q) in E.
      rewrite assoc_absent in E by (rewrite HT; exact Hl).
      rewrite Hp, Hi, Ht, Hc in E. discriminate.
    + apply IH; [|exact Hh]. rewrite (tally_keys _ _ _ _ _ E). exact HT.
  - rewrite (tally_throws _ _ _ E). reflexivity.
Qed.

Lemma handler_unknown (h : list History.QuestionRecord) :
  existsb (fun q => unknown (tier q)) h = true ->
  handler (Some h) = Error500 "Cannot read properties of undefined (reading 'total')".
Proof.
  intros Hh. destruct h as [|q h]; [discriminate|].
  unfold handler, summary.
  rewrite forEach_tally_unknown by (reflexivity || exact Hh).
  reflexivity.
Qed.

(** *** The claims *)

(** C3 (the claim holds of the specification, not of the code): a record
    whose difficulty is none of the three levels does weigh 2 in the
    [switch], but the tally that follows reads [byDifficulty[diff].total]
    on a missing entry, throws, and the response is a 500. *)
Theorem C3_unrecognized_difficulty_is_an_error :
  let q := answer (Some "experto") true in
  weight q = 2%Z /\
  handler (Some [q])
  = Error500 "Cannot read properties of undefined (reading 'total')" /\
  handler (Some [answer (Some "fácil") true; q; answer (Some "difícil") false])
  = Error500 "Cannot read properties of undefined (reading 'total')".
Proof. repeat split. Qed.

(** C8 (the claim holds of the specification, not of the code): in a
    history of two records, [fácil] has one attempt, a correct one, so
    its accuracy is 100%; the other record bears a difficulty that is
    none of the three levels, the tally throws on it, and the response is
    a 500 that lists no strength at all. *)
Theorem C8_unknown_level_lists_no_strength :
  let history := [answer (Some "fácil") true; answer (Some "experto") true] in
  attempts Easy history = 1%Z /\
  corrects Easy history = 1%Z /\
  strong (Easy, {| Stats.correct := corrects Easy history;
                   Stats.total := attempts Easy history |}) = true /\
  handler (Some history)
  = Error500 "Cannot read properties of undefined (reading 'total')".
Proof. repeat split. Qed.

(** X20: on a non-empty history of levelled records the analytics are
    sent, and a level with at least one attempt is listed in
    [strengthAreas] exactly when 100 times its correct attempts reach 75
    times its attempts, in [improvementAreas] exactly when they stay
    under 50 times its attempts; at exactly 75% it is a strength, at
    exactly 50% it is in neither list. *)
Theorem thresholds_on_levelled_histories (history : list History.QuestionRecord) :
  history <> [] ->
  forallb levelled history = true ->
  exists analytics,
    handler (Some history) = Summary200 analytics /\
    forall t, In t [Easy; Medium; Hard] ->
      let n := attempts t history in
      let c := corrects t history in
      (0 < n)%Z ->
      (In t (levels (Summary.strengthAreas analytics)) <-> (75 * n <= 100 * c)%Z) /\
      (In t (levels (Summary.improvementAreas analytics)) <-> (100 * c < 50 * n)%Z) /\
      ((4 * c = 3 * n)%Z -> In t (levels (Summary.strengthAreas analytics))) /\
      ((2 * c = n)%Z -> ~ In t (levels (Summary.strengthAreas analytics)) /\
                        ~ In t (levels (Summary.improvementAreas analytics))).
Proof.
  intros Hne Hh.
  destruct (summary_levelled history Hh) as [a [Ha [HT [HS [HI _]]]]].
  exists a. split.
  { destruct history as [|q h]; [contradiction|].
    unfold handler. rewrite Ha. reflexivity. }
  intros t Ht n c Hn.
  assert (Hstrong : In t (levels (Summary.strengthAreas a)) <-> (75 * n <= 100 * c)%Z).
  { rewrite HS, HT, In_filter_table. unfold strong. cbn [snd Stats.total].
    destruct Ht as [<-|[<-|[<-|[]]]]; fold n c;
      (split;
       [ intros [[E H]|[[E H]|[E H]]]; try discriminate E;
         apply andb_true_iff in H as [_ H]; apply percent_ge_75 in H; assumption
       | intros H; apply (percent_ge_75 c n Hn) in H;
         assert (G : (n >? 0)%Z = true) by (apply Z.gtb_lt; exact Hn);
         rewrite G, H; auto ]). }
  assert (Hweak : In t (levels (Summary.improvementAreas a)) <-> (100 * c < 50 * n)%Z).
  { rewrite HI, HT, In_filter_table. unfold weak. cbn [snd Stats.total].
    destruct Ht as [<-|[<-|[<-|[]]]]; fold n c;
      (split;
       [ intros [[E H]|[[E H]|[E H]]]; try discriminate E;
         apply andb_true_iff in H as [_ H]; apply percent_lt_50 in H; assumption
       | intros H; apply (percent_lt_50 c n Hn) in H;
         assert (G : (n >? 0)%Z = true) by (apply Z.gtb_lt; exact Hn);
         rewrite G, H; auto ]). }
  split; [exact Hstrong|]. split; [exact Hweak|]. split.
  - intros E. apply Hstrong. lia.
  - intros E. rewrite Hstrong, Hweak. lia.
Qed.

(** X20 on four attempts at [medio], three of them correct (75%), and
    two attempts at [difícil], one of them correct (50%). *)
Lemma thresholds_on_levelled_histories_witness :
  let history := [answer (Some "medio") true; answer (Some "medio") true;
                  answer (Some "difícil") true; answer (Some "medio") false;
                  answer (Some "difícil") false; answer None true] in
  history <> [] /\ forallb levelled history = true /\
  exists analytics,
    handler (Some history) = Summary200 analytics /\
    In Medium (levels (Summary.strengthAreas analytics)) /\
    ~ In Hard (levels (Summary.strengthAreas analytics)) /\
    ~ In Hard (levels (Summary.improvementAreas analytics)).
Proof.
  intros history.
  assert (Hne : history <> []) by discriminate.
  assert (Hl : forallb levelled history = true) by reflexivity.
  split; [exact Hne|]. split; [exact Hl|].
  destruct (thresholds_on_levelled_histories history Hne Hl) as [a [Ha H]].
  exists a. split; [exact Ha|].
  assert (HM : In Medium [Easy; Medium; Hard]) by (simpl; auto).
  assert (HH : In Hard [Easy; Medium; Hard]) by (simpl; auto).
  destruct (H Medium HM eq_refl) as [_ [_ [H75 _]]].
  destruct (H Hard HH eq_refl) as [_ [_ [_ H50]]].
  split; [apply H75; reflexivity|]. apply H50. reflexivity.
Defined.

End AnalyticsProps.

(* ===================================================================== *)
(** ** Properties of the speech relay *)
(* ===================================================================== *)

Module SpeakProps.

Import Js Spec.
Import Speak.

Lemma openaiKey_credential (env : Env) :
  truthyStr (if truthyStr (OPENAI_API_KEY env) then OPENAI_API_KEY env
             else OPENROUTER_API_KEY env)
  = credential env.
Proof.
  unfold credential.
  destruct (truthyStr (OPENAI_API_KEY env)) eqn:E; [exact E|reflexivity].
Qed.

(** C9, as the claim words it, fails: a request without [text] is answered
    with status 400 and [success: false], whatever the credential and the
    provider. *)
Lemma C9_counterexample :
  let env := {| OPENAI_API_KEY := Some "key"; OPENROUTER_API_KEY := None |} in
  let body := {| text := None; language := None; voice := None |} in
  let response := handler env body (Ok []) in
  status response = 400%nat /\
  success (payload response) = false /\
  useNativeSpeech (payload response) = None.
Proof. repeat split. Qed.

(** C9, amended: a request whose [text] is truthy is answered with status
    200 and [success: true]; when the credential is missing, the provider
    does not deliver audio (non-success status or thrown error) or [text]
    is not a string (so that the handler throws), the body carries
    [audioUrl: null] and [useNativeSpeech: true].  A request whose [text]
    is missing or falsy is answered with status 400. *)
Theorem C9_soft_success_when_text_present (env : Env) (body : Body) (tts : Tts) :
  let response := handler env body tts in
  (truthy (text body) = true ->
     status response = 200%nat /\
     success (payload response) = true /\
     (credential env = false \/ delivered tts = false
      \/ substring (text body) <> Ret tt ->
      audioUrl (payload response) = Some None /\
      useNativeSpeech (payload response) = Some true)) /\
  (truthy (text body) = false ->
     response = {| status := 400; payload := TextRequired |}).
Proof.
  unfold handler, relay. split.
  - intros Ht. rewrite Ht. cbn [negb].
    destruct (substring (text body)) as [[]|e] eqn:Es; cbn [bind].
    + destruct (interpolate (language body)) as [[]|e]; cbn [bind];
        [|simpl; repeat split].
      destruct (interpolate (Some match voice body with
                                  | Some v => v
                                  | None => JStr "nova"
                                  end)) as [[]|e]; cbn [bind];
        [|simpl; repeat split].
      rewrite openaiKey_credential.
      destruct (credential env) eqn:Ec; cbn [negb].
      * destruct tts as [e|st errorText|audioBuffer]; simpl;
          (split; [reflexivity|]); (split; [reflexivity|]);
          try (intros _; split; reflexivity).
        intros [H|[H|H]]; try discriminate. contradiction.
      * simpl. repeat split.
    + simpl. repeat split.
  - intros Ht. rewrite Ht. reflexivity.
Qed.

(** C9 on a spoken word, with no credential and with a failing provider. *)
Lemma C9_witness :
  let body := {| text := Some (JStr "hola"); language := None; voice := None |} in
  let none := {| OPENAI_API_KEY := None; OPENROUTER_API_KEY := None |} in
  let key := {| OPENAI_API_KEY := Some "key"; OPENROUTER_API_KEY := None |} in
  truthy (text body) = true /\
  credential none = false /\
  delivered (NotOk 429 "rate limited") = false /\
  status (handler none body (Ok [])) = 200%nat /\
  useNativeSpeech (payload (handler none body (Ok []))) = Some true /\
  useNativeSpeech (payload (handler key body (NotOk 429 "rate limited"))) = Some true.
Proof.
  intros body none key.
  destruct (C9_soft_success_when_text_present none body (Ok [])) as [H1 _].
  destruct (C9_soft_success_when_text_present key body (NotOk 429 "rate limited"))
    as [H2 _].
  destruct (H1 eq_refl) as [Hs [_ Hn]].
  destruct (H2 eq_refl) as [_ [_ Hk]].
  split; [reflexivity|]. split; [reflexivity|]. split; [reflexivity|].
  split; [exact Hs|]. split.
  - apply Hn. left. reflexivity.
  - apply Hk. right. left. reflexivity.
Defined.

End SpeakProps.

(* ===================================================================== *)
(** ** Further properties of the estimator, the resolver and the topics *)
(* ===================================================================== *)

Module EstimatorMore.

Import Js Generate Spec.

(** The estimator answers one of the three levels. *)
Lemma targetDifficulty_level (performance : option Performance) :
  targetDifficulty performance = Easy \/
  targetDifficulty performance = Medium \/
  targetDifficulty performance = Hard.
Proof.
  unfold targetDifficulty. cbv zeta.
  destruct (gtb _ 0.8 && _); [right; right; reflexivity|].
  destruct (ltb _ 0.5 || _); [left|right; left]; reflexivity.
Qed.

(** X8: a better signal never lowers the target.  For two signals whose
    accuracies are present and not zero, a higher (or equal) accuracy
    together with a longer (or equal) streak yields a level that is at
    least as high. *)
Theorem targetDifficulty_monotone (a b : Q) (s t : Z) :
  ~ (a == 0)%Q -> ~ (b == 0)%Q -> (a <= b)%Q -> (s <= t)%Z ->
  (rank (targetDifficulty (Some {| accuracy := Some a; streak := Some s |}))
   <= rank (targetDifficulty (Some {| accuracy := Some b; streak := Some t |})))%Z.
Proof.
  intros Ha Hb Hab Hst.
  destruct (EstimatorProps.targetDifficulty_rule_fields a s Ha) as [Ea Es].
  destruct (EstimatorProps.targetDifficulty_rule_fields b t Hb) as [Eb Et].
  unfold targetDifficulty. cbv zeta. rewrite Ea, Es, Eb, Et.
  destruct (gtb a 0.8) eqn:Ga; destruct (3 <=? s)%Z eqn:Gs;
    destruct (ltb a 0.5) eqn:La; destruct (s <? 0)%Z eqn:Ls;
    destruct (gtb b 0.8) eqn:Gb; destruct (3 <=? t)%Z eqn:Gt;
    destruct (ltb b 0.5) eqn:Lb; destruct (t <? 0)%Z eqn:Lt;
    cbn [andb orb]; try (vm_compute; discriminate);
    exfalso;
    try apply EstimatorProps.gtb_true in Ga; try apply EstimatorProps.ltb_true in La;
    try apply EstimatorProps.gtb_true in Gb; try apply EstimatorProps.ltb_true in Lb;
    try apply Z.leb_le in Gs; try apply Z.ltb_lt in Ls;
    try apply Z.leb_le in Gt; try apply Z.ltb_lt in Lt;
    try apply Z.leb_gt in Gs; try apply Z.ltb_ge in Ls;
    try apply Z.leb_gt in Gt; try apply Z.ltb_ge in Lt;
    try lia;
    repeat match goal with
           | H : gtb ?x ?y = false |- _ =>
               assert (x <= y)%Q
                 by (apply Qnot_lt_le; intros C;
                     apply EstimatorProps.gtb_true in C; congruence);
               clear H
           | H : ltb ?x ?y = false |- _ =>
               assert (y <= x)%Q
                 by (apply Qnot_lt_le; intros C;
                     apply EstimatorProps.ltb_true in C; congruence);
               clear H
           end;
    lra.
Qed.

(** X8 from accuracy 0.3, streak 1 to accuracy 0.9, streak 4. *)
Lemma targetDifficulty_monotone_witness :
  ~ (0.3 == 0)%Q /\ ~ (0.9 == 0)%Q /\ (0.3 <= 0.9)%Q /\ (1 <= 4)%Z /\
  (rank (targetDifficulty (Some {| accuracy := Some 0.3%Q; streak := Some 1%Z |}))
   <= rank (targetDifficulty (Some {| accuracy := Some 0.9%Q; streak := Some 4%Z |})))%Z.
Proof.
  assert (H3 : ~ (0.3 == 0)%Q) by (intros C; discriminate C).
  assert (H9 : ~ (0.9 == 0)%Q) by (intros C; discriminate C).
  assert (Hq : (0.3 <= 0.9)%Q) by (intros C; discriminate C).
  assert (Hz : (1 <= 4)%Z) by lia.
  split; [exact H3|]. split; [exact H9|]. split; [exact Hq|]. split; [exact Hz|].
  exact (targetDifficulty_monotone 0.3%Q 0.9%Q 1%Z 4%Z H3 H9 Hq Hz).
Defined.

(** Without the proviso the order breaks at accuracy 0, which counts as
    0.5: the target drops from Medium to Easy as the accuracy rises. *)
Remark targetDifficulty_drops_above_zero :
  targetDifficulty (Some {| accuracy := Some 0; streak := Some 0%Z |}) = Medium /\
  targetDifficulty (Some {| accuracy := Some 0.1; streak := Some 0%Z |}) = Easy.
Proof. split; reflexivity. Qed.

(** X9: the resolver always answers a non-empty tag, and it answers the
    general tag exactly for the subjects that the table does not list. *)
Theorem lomloeCompetency_fallback (subject : string) (performance : option Performance) :
  String.eqb (lomloeCompetency subject performance) "" = false /\
  String.eqb (lomloeCompetency subject performance) "Competencia general"
  = negb (existsb (String.eqb subject) subjects).
Proof.
  unfold lomloeCompetency. cbv zeta.
  destruct (targetDifficulty_level performance) as [E|[E|E]]; rewrite E;
    unfold subjects, competencyMap; cbn [map fst existsb assoc];
    repeat match goal with
           | |- context [String.eqb subject ?k] =>
               destruct (String.eqb subject k)
           end;
    split; reflexivity.
Qed.

(** *** The clause of the prompt on recent topics *)

Lemma append_empty (a b : string) : (a ++ b)%string = "" -> a = "".
Proof. destruct a; [reflexivity|discriminate]. Qed.

Lemma filterBoolean_nonempty (l : list (option string)) :
  Forall (fun s => s <> "") (filterBoolean l).
Proof.
  induction l as [|[s|] l IH]; simpl; [constructor| |exact IH].
  destruct (String.eqb s "") eqn:E; simpl; [exact IH|].
  constructor; [|exact IH]. apply String.eqb_neq. exact E.
Qed.

Lemma join_empty (sep : string) (l : list string) :
  Forall (fun s => s <> "") l -> join sep l = "" -> l = [].
Proof.
  intros Hl Hj. destruct l as [|s l]; [reflexivity|]. exfalso.
  inversion Hl as [|? ? Hs _]; subst.
  destruct l as [|s' l]; simpl in Hj; [contradiction|].
  apply append_empty in Hj. contradiction.
Qed.

Lemma filterBoolean_none (l : list History.QuestionRecord) :
  filterBoolean (map History.topic l) = [] <-> existsb bearing l = false.
Proof.
  induction l as [|q l IH]; simpl; [tauto|].
  unfold bearing at 1. unfold truthyStr.
  destruct (History.topic q) as [s|]; simpl; [|exact IH].
  destruct (String.eqb s ""); simpl; [exact IH|].
  split; discriminate.
Qed.

(** X10: the prompt carries the clause on recent topics exactly when one
    of the last 5 records of the history bears a topic; with no history
    the clause is empty. *)
Theorem topicsClause_emitted (h : list History.QuestionRecord) :
  String.eqb (topicsClause (recentTopics (Some h))) ""
  = negb (existsb bearing (lastn 5 h)) /\
  topicsClause (recentTopics None) = "".
Proof.
  split; [|reflexivity].
  assert (Hs : slice (-5) h = lastn 5 h)
    by (apply (TopicProps.slice_negative 5); lia).
  unfold topicsClause, recentTopics. rewrite Hs.
  destruct (existsb bearing (lastn 5 h)) eqn:E.
  - destruct (String.eqb (join ", " _) "") eqn:J; [|reflexivity].
    apply String.eqb_eq in J.
    apply join_empty in J; [|apply filterBoolean_nonempty].
    apply filterBoolean_none in J. congruence.
  - apply filterBoolean_none in E. rewrite E. reflexivity.
Qed.

End EstimatorMore.

(* ===================================================================== *)
(** ** Further properties of the fence stripping *)
(* ===================================================================== *)

Module FenceMore.

Import Js Generate Spec.

#[local] Opaque replaceFence.

Lemma after_length (p s r : text) :
  after p s = Some r -> List.length s = (List.length p + List.length r)%nat.
Proof.
  revert s. induction p as [|a p IH]; intros s H; simpl in H.
  - injection H as <-. reflexivity.
  - destruct s as [|b s]; [discriminate|].
    destruct (N.eqb a b); [|discriminate].
    simpl. rewrite (IH _ H). reflexivity.
Qed.

Lemma matchAt_length (tag s rest : text) :
  matchAt tag s = Some rest -> (List.length rest <= List.length s)%nat.
Proof.
  unfold matchAt. destruct (after (fence ++ tag) s) as [r|] eqn:E; [|discriminate].
  intros H. injection H as <-. apply after_length in E.
  assert (List.length (optLF r) <= List.length r)%nat.
  { destruct r as [|x r]; simpl; [lia|]. destruct (N.eqb x LF); simpl; lia. }
  lia.
Qed.

Lemma replaceFence_length (tag s : text) :
  (List.length (replaceFence tag s) <= List.length s)%nat.
Proof.
  apply (replaceFence_elim
           (fun tag s r => (List.length r <= List.length s)%nat)).
  - intros. simpl. lia.
  - intros tag0 c s' rest e IH _. apply matchAt_length in e. lia.
  - intros tag0 c s' e IH _. simpl. lia.
Qed.

Lemma trim_length (s : text) : (List.length (trim s) <= List.length s)%nat.
Proof.
  unfold trim.
  destruct (FenceProps.trimStart_suffix s) as [a Ha].
  destruct (FenceProps.trimEnd_prefix (trimStart s)) as [b Hb].
  rewrite Ha at 2. rewrite Hb at 2. rewrite !length_app. lia.
Qed.

Lemma trim_head (s : text) :
  match trim s with
  | c :: _ => isWhiteSpace c = false
  | [] => True
  end.
Proof.
  unfold trim.
  destruct (FenceProps.trimStart_head s) as [E|[c [t [E Hc]]]]; rewrite E.
  - exact I.
  - destruct (FenceProps.trimEnd_head c t Hc) as [u Hu]. rewrite Hu. exact Hc.
Qed.

Lemma trim_last (s : text) :
  match lastUnit (trim s) with
  | Some c => isWhiteSpace c = false
  | None => True
  end.
Proof.
  unfold lastUnit, trim, trimEnd. rewrite rev_involutive.
  destruct (FenceProps.trimStart_head (rev (trimStart s))) as [E|[c [t [E Hc]]]];
    rewrite E; simpl; auto.
Qed.

(** X14: whatever the provider text, the stripped text holds no triple
    backtick, neither starts nor ends with white space, and is not longer
    than the text it comes from. *)
Theorem jsonContent_clean (aiContent : text) :
  contains fence (jsonContent aiContent) = false /\
  match jsonContent aiContent with
  | c :: _ => isWhiteSpace c = false
  | [] => True
  end /\
  match lastUnit (jsonContent aiContent) with
  | Some c => isWhiteSpace c = false
  | None => True
  end /\
  (List.length (jsonContent aiContent) <= List.length aiContent)%nat.
Proof.
  unfold jsonContent. repeat split.
  - apply FenceProps.trim_no_fence, FenceProps.replaceFence_no_fence.
  - apply trim_head.
  - apply trim_last.
  - etransitivity; [apply trim_length|].
    etransitivity; [apply replaceFence_length|]. apply replaceFence_length.
Qed.

End FenceMore.

(* ===================================================================== *)
(** ** Further properties of the generation handler *)
(* ===================================================================== *)

Module HandlerMore.

Import Js Generate Spec.

#[local] Opaque replaceFence.

Lemma guarded_true (env : Env) (body : Body) :
  guarded env body = true ->
  truthy (level body) = true /\ truthy (subject body) = true /\
  truthyStr (OPENROUTER_API_KEY env) = true.
Proof.
  unfold guarded. intros H.
  apply andb_true_iff in H as [H Hk]. apply andb_true_iff in H as [Hl Hs].
  auto.
Qed.

Lemma handler_accepts (JSON_parse : text -> result json)
        (env : Env) (body : Body) (content : text) (usage : option json) (q : json) :
  guarded env body = true ->
  printed body = true ->
  JSON_parse (jsonContent (trim content)) = Ret q ->
  schema_checked q = true ->
  handler JSON_parse env body (Ok content usage)
  = ([log_generating (level body) (subject body) (targetDifficulty (performance body))],
     Ret (json_200 (Success q (metadata_of env body usage)))).
Proof.
  intros Hg Hb Hp Hq. destruct (guarded_true env body Hg) as [Hl [Hs Hk]].
  unfold handler. rewrite Hl, Hs, Hk. cbn [negb orb].
  rewrite (HandlerProps.systemPrompt_printed body), Hb. simpl.
  unfold bindM at 1. simpl.
  unfold questionData, parseBlock, tryCatch. rewrite Hp. cbn [bind].
  rewrite (ValidatorProps.validate_checked q Hq). reflexivity.
Qed.

(** X12: when the guards are passed, [level] and [subject] can be printed
    into the prompt, the provider answers, and its text, once stripped,
    parses to a payload that the validation accepts, the handler answers
    200 with that very payload and with the target difficulty and
    rationale computed from the request; the console shows the one line
    announcing the generation. *)
Theorem handler_accepted (JSON_parse : text -> result json)
        (env : Env) (body : Body) (content : text) (usage : option json) (q : json) :
  guarded env body = true ->
  printed body = true ->
  JSON_parse (jsonContent (trim content)) = Ret q ->
  schema_checked q = true ->
  handler JSON_parse env body (Ok content usage)
  = ([log_generating (level body) (subject body) (targetDifficulty (performance body))],
     Ret (json_200 (Success q (metadata_of env body usage)))).
Proof.
  intros Hg Hb Hp Hq. destruct (guarded_true env body Hg) as [Hl [Hs Hk]].
  unfold handler. rewrite Hl, Hs, Hk. cbn [negb orb].
  rewrite (HandlerProps.systemPrompt_printed body), Hb. simpl.
  unfold bindM at 1. simpl.
  unfold questionData, parseBlock, tryCatch. rewrite Hp. cbn [bind].
  rewrite (ValidatorProps.validate_checked q Hq). reflexivity.
Qed.

(** X12 on the provider text [ok], read as a payload with four options. *)
Lemma handler_accepted_witness :
  let env := {| OPENROUTER_API_KEY := Some "key"; NODE_ENV := None;
                now := "2025-01-01T00:00:00.000Z" |} in
  let body := {| level := Some (JStr "ESO"); subject := Some (JStr "Lengua");
                 performance := None; questionHistory := None |} in
  let q := sample [JStr "1"; JStr "2"; JStr "3"; JStr "4"] (Some (JNum 3)) in
  guarded env body = true /\
  printed body = true /\
  parse_only (lit "ok") q (jsonContent (trim (lit " ok "))) = Ret q /\
  schema_checked q = true /\
  sent (handler (parse_only (lit "ok") q) env body (Ok (lit " ok ") None))
  = Ret (json_200 (Success q (metadata_of env body None))).
Proof.
  intros env body q.
  assert (Hg : guarded env body = true) by reflexivity.
  assert (Hb : printed body = true) by reflexivity.
  assert (Hp : parse_only (lit "ok") q (jsonContent (trim (lit " ok "))) = Ret q)
    by (vm_compute; reflexivity).
  assert (Hq : schema_checked q = true) by reflexivity.
  split; [exact Hg|]. split; [exact Hb|]. split; [exact Hp|]. split; [exact Hq|].
  rewrite (handler_accepted (parse_only (lit "ok") q) env body (lit " ok ") None q
                            Hg Hb Hp Hq).
  reflexivity.
Defined.

Lemma handler_failure (JSON_parse : text -> result json)
      (env : Env) (body : Body) (provider : Provider) :
  guarded env body = true ->
  match provider with
  | FetchThrows _ => True
  | NotOk _ _ => True
  | Ok content _ => rejected JSON_parse (trim content)
  end ->
  exists error details,
    sent (handler JSON_parse env body provider)
    = Ret (json_500 (Failure error details)) /\ String.eqb error "" = false.
Proof.
  intros Hg Hp. destruct (guarded_true env body Hg) as [Hl [Hs Hk]].
  destruct (printed body) eqn:Hb.
  - destruct provider as [e|statusText errorText|content usage].
    + unfold handler. rewrite Hl, Hs, Hk. cbn [negb orb].
      rewrite (HandlerProps.systemPrompt_printed body), Hb. simpl.
      eexists. eexists. split; [reflexivity|].
      destruct (String.eqb (message e) "") eqn:E; [reflexivity|exact E].
    + unfold handler. rewrite Hl, Hs, Hk. cbn [negb orb].
      rewrite (HandlerProps.systemPrompt_printed body), Hb. simpl.
      eexists. eexists. split; reflexivity.
    + rewrite (HandlerProps.handler_rejected JSON_parse env body content usage
                                             Hl Hs Hk Hb Hp).
      eexists. eexists. split; reflexivity.
  - rewrite (HandlerProps.handler_unprintable JSON_parse env body provider Hl Hs Hk Hb).
    eexists. eexists. split; reflexivity.
Qed.

(** X11: the handler always answers, and what it answers is sound.  A
    body with a question is sent with status 200 only, only when the
    guards are passed, and the question is the payload parsed from the
    stripped provider text and accepted by the validation, with the
    target difficulty and rationale of the request; every other answer
    has status 400 or 500 and a non-empty error message. *)
Theorem handler_outcome (JSON_parse : text -> result json)
        (env : Env) (body : Body) (provider : Provider) :
  exists r,
    sent (handler JSON_parse env body provider) = Ret r /\
    match payload r with
    | Success q md =>
        status r = 200%nat /\ guarded env body = true /\ schema_checked q = true /\
        (exists content usage,
            provider = Ok content usage /\
            JSON_parse (jsonContent (trim content)) = Ret q) /\
        md_targetDifficulty md = targetDifficulty (performance body) /\
        md_adaptiveReason md = adaptiveReason (performance body)
    | Failure error _ =>
        (status r = 400%nat \/ status r = 500%nat) /\ String.eqb error "" = false
    end.
Proof.
  destruct (guarded env body) eqn:Hg.
  - assert (Hfail : match provider with
                    | FetchThrows _ => True
                    | NotOk _ _ => True
                    | Ok content _ => rejected JSON_parse (trim content)
                    end ->
                    exists r,
                      sent (handler JSON_parse env body provider) = Ret r /\
                      match payload r with
                      | Success _ _ => False
                      | Failure error _ =>
                          (status r = 400%nat \/ status r = 500%nat)
                          /\ String.eqb error "" = false
                      end).
    { intros Hp.
      destruct (handler_failure JSON_parse env body provider Hg Hp)
        as [error [details [Hr He]]].
      eexists. split; [exact Hr|]. simpl. auto. }
    destruct provider as [e|statusText errorText|content usage];
      try (destruct (Hfail I) as [r [Hr Hm]]; exists r; split; [exact Hr|];
           destruct (payload r); [contradiction|exact Hm]).
    destruct (JSON_parse (jsonContent (trim content))) as [q|e] eqn:Hp.
    + destruct (schema_checked q) eqn:Hq.
      * destruct (printed body) eqn:Hb.
        -- eexists.
           rewrite (handler_accepts JSON_parse env body content usage q Hg Hb Hp Hq).
           split; [reflexivity|]. simpl.
           split; [reflexivity|]. split; [reflexivity|]. split; [exact Hq|].
           split; [exists content, usage; split; [reflexivity|exact Hp]|].
           split; reflexivity.
        -- destruct (guarded_true env body Hg) as [Hl [Hs Hk]].
           eexists.
           rewrite (HandlerProps.handler_unprintable JSON_parse env body _ Hl Hs Hk Hb).
           split; [reflexivity|]. simpl. auto.
      * assert (Hrej : rejected JSON_parse (trim content))
          by (right; exists q; split; assumption).
        destruct (Hfail Hrej) as [r [Hr Hm]]. exists r. split; [exact Hr|].
        destruct (payload r); [contradiction|exact Hm].
    + assert (Hrej : rejected JSON_parse (trim content))
        by (left; exists e; exact Hp).
      destruct (Hfail Hrej) as [r [Hr Hm]]. exists r. split; [exact Hr|].
      destruct (payload r); [contradiction|exact Hm].
  - unfold guarded in Hg. unfold handler.
    destruct (truthy (level body)); simpl in *.
    + destruct (truthy (subject body)); simpl in *.
      * rewrite Hg. simpl. eexists. split; [reflexivity|]. simpl. auto.
      * eexists. split; [reflexivity|]. simpl. auto.
    + eexists. split; [reflexivity|]. simpl. auto.
Qed.

(** X13: a request without a truthy [level] or [subject] is answered 400
    at once: the answer is the same whatever the environment (a missing
    key included), the provider and the parser, and nothing is written to
    the console. *)
Theorem handler_missing_fields (JSON_parse : text -> result json)
        (env : Env) (body : Body) (provider : Provider) :
  truthy (level body) && truthy (subject body) = false ->
  handler JSON_parse env body provider
  = ([], Ret (json_400 (Failure "Missing required fields: level and subject" None))).
Proof.
  intros H. unfold handler.
  destruct (truthy (level body)); simpl in *; [|reflexivity].
  rewrite H. reflexivity.
Qed.

(** X13 on a body without subject, with no key configured. *)
Lemma handler_missing_fields_witness :
  let env := {| OPENROUTER_API_KEY := None; NODE_ENV := None; now := "" |} in
  let body := {| level := Some (JStr "ESO"); subject := None;
                 performance := None; questionHistory := None |} in
  truthy (level body) && truthy (subject body) = false /\
  handler parse_null env body (Ok (lit "null") None)
  = ([], Ret (json_400 (Failure "Missing required fields: level and subject" None))).
Proof.
  intros env body. split; [reflexivity|].
  apply (handler_missing_fields parse_null env body (Ok (lit "null") None)).
  reflexivity.
Defined.

(** X15: when the guards are passed, [level] and [subject] can be
    printed into the prompt, and the provider answers with a non-success
    status, the answer is 500 with a message made of the status text
    alone; the error body of the provider goes to the console and not
    into the answer. *)
Theorem handler_upstream_failure (JSON_parse : text -> result json)
        (env : Env) (body : Body) (statusText errorText : string) :
  guarded env body = true ->
  printed body = true ->
  let error := Error ("OpenRouter API failed: " ++ statusText) in
  sent (handler JSON_parse env body (NotOk statusText errorText))
  = Ret (json_500 (Failure (message error) (details_of env error))) /\
  In (error_openrouter errorText)
     (console (handler JSON_parse env body (NotOk statusText errorText))).
Proof.
  intros Hg Hb error. destruct (guarded_true env body Hg) as [Hl [Hs Hk]].
  unfold handler. rewrite Hl, Hs, Hk. cbn [negb orb].
  rewrite (HandlerProps.systemPrompt_printed body), Hb. simpl.
  split; [reflexivity|auto].
Qed.

(** X15 on a rate-limited provider. *)
Lemma handler_upstream_failure_witness :
  let env := {| OPENROUTER_API_KEY := Some "key"; NODE_ENV := Some "development";
                now := "" |} in
  let body := {| level := Some (JStr "ESO"); subject := Some (JStr "Lengua");
                 performance := None; questionHistory := None |} in
  guarded env body = true /\
  printed body = true /\
  sent (handler parse_null env body (NotOk "Too Many Requests" "quota exceeded for key"))
  = Ret (json_500 (Failure "OpenRouter API failed: Too Many Requests"
                           (Some "Error: OpenRouter API failed: Too Many Requests"))).
Proof.
  intros env body. split; [reflexivity|]. split; [reflexivity|].
  apply (handler_upstream_failure parse_null env body
           "Too Many Requests" "quota exceeded for key"); reflexivity.
Defined.

End HandlerMore.

(* ===================================================================== *)
(** ** Further properties of the analytics *)
(* ===================================================================== *)

Module AnalyticsMore.

Import Js Spec.
Import Analytics.

(** *** The summary in closed form *)

Lemma classify_entry (S I : list Area.t) (e : string * Stats.t) :
  classify (S, I) e
  = (S ++ (if strong e then [area e] else []),
     I ++ (if weak e then [area e] else [])).
Proof.
  destruct e as [diff stats]. unfold classify, strong, weak, area, percent. simpl.
  destruct (Stats.total stats >? 0)%Z; simpl.
  - destruct (geb _ 75); destruct (ltb _ 50); rewrite ?app_nil_r; reflexivity.
  - rewrite !app_nil_r. reflexivity.
Qed.

Lemma classify_areas (T : Tally) :
  forall S I,
  fold_left classify T (S, I)
  = (S ++ map area (filter strong T), I ++ map area (filter weak T)).
Proof.
  induction T as [|e T IH]; intros S I; cbn [fold_left filter map].
  - rewrite !app_nil_r. reflexivity.
  - rewrite classify_entry, IH, <- !app_assoc.
    destruct (strong e), (weak e); reflexivity.
Qed.

Lemma summary_closed (h : list History.QuestionRecord) :
  forallb levelled h = true -> summary h = Ret (summary_of h).
Proof.
  intros Hh. unfold summary.
  change byDifficulty0
    with (table {| Stats.correct := 0; Stats.total := 0 |}
                {| Stats.correct := 0; Stats.total := 0 |}
                {| Stats.correct := 0; Stats.total := 0 |}).
  rewrite (AnalyticsProps.forEach_tally h shipped _ _ _ Hh). cbn [bind fst].
  change (table _ _ _) with (counted h).
  rewrite classify_areas. cbn [app].
  assert (Hs : slice (-10) h = lastn 10 h)
    by (apply (TopicProps.slice_negative 10); lia).
  rewrite Hs.
  rewrite length_map. reflexivity.
Qed.

Lemma handler_closed (h : list History.QuestionRecord) :
  h <> [] -> forallb levelled h = true ->
  handler (Some h) = Summary200 (summary_of h).
Proof.
  intros Hne Hh. destruct h as [|q h]; [contradiction|].
  unfold handler. rewrite (summary_closed (q :: h) Hh). reflexivity.
Qed.

(** *** Counting *)

Lemma corrects_le_attempts (t : string) (h : list History.QuestionRecord) :
  (0 <= corrects t h <= attempts t h)%Z.
Proof.
  induction h as [|q h IH].
  - unfold corrects, attempts. simpl. lia.
  - rewrite AnalyticsProps.attempts_cons, AnalyticsProps.corrects_cons.
    destruct (String.eqb (tier q) t); destruct (History.correct q); cbn [andb]; lia.
Qed.

Lemma attempts_total (h : list History.QuestionRecord) :
  forallb levelled h = true ->
  (attempts Easy h + attempts Medium h + attempts Hard h
   = Z.of_nat (List.length h))%Z /\
  (corrects Easy h + corrects Medium h + corrects Hard h
   = Z.of_nat (List.length (filter History.correct h)))%Z.
Proof.
  induction h as [|q h IH]; intros Hh.
  - unfold attempts, corrects. simpl. lia.
  - cbn [forallb] in Hh. apply andb_true_iff in Hh as [Hq Hh].
    destruct (IH Hh) as [IHa IHc].
    rewrite !AnalyticsProps.attempts_cons, !AnalyticsProps.corrects_cons.
    cbn [filter List.length].
    destruct (AnalyticsProps.levelled_cases q Hq) as [E|[E|E]]; rewrite E;
      destruct (History.correct q); cbn [List.length];
      change (String.eqb Easy Easy) with true;
      change (String.eqb Easy Medium) with false;
      change (String.eqb Easy Hard) with false;
      change (String.eqb Medium Easy) with false;
      change (String.eqb Medium Medium) with true;
      change (String.eqb Medium Hard) with false;
      change (String.eqb Hard Easy) with false;
      change (String.eqb Hard Medium) with false;
      change (String.eqb Hard Hard) with true;
      cbn [andb]; lia.
Qed.


(** *** Rounding *)

Lemma floor_half_between (y : Q) (lo hi : Z) :
  (inject_Z lo <= y)%Q -> (y <= inject_Z hi)%Q ->
  (lo <= Qfloor (y + (1 # 2)) <= hi)%Z.
Proof.
  intros Hlo Hhi. split.
  - rewrite <- (Qfloor_Z lo). apply Qfloor_resp_le. lra.
  - pose proof (Qfloor_le (y + (1 # 2))) as Hf.
    assert (Hlt : (inject_Z (Qfloor (y + (1 # 2))) < inject_Z (hi + 1))%Q).
    { rewrite inject_Z_plus. change (inject_Z 1) with 1%Q. lra. }
    rewrite <- Zlt_Qlt in Hlt. lia.
Qed.

Lemma percent_upper (k c t : Z) :
  (0 < t)%Z ->
  (percent {| Stats.correct := c; Stats.total := t |} <= inject_Z k)%Q
  <-> (100 * c <= k * t)%Z.
Proof.
  intros Ht. unfold percent. cbn [Stats.correct Stats.total].
  destruct t as [|p|p]; try lia.
  unfold Qle, Qdiv, Qmult, Qinv, inject_Z. cbn [Qnum Qden].
  rewrite ?Pos.mul_1_r, ?Pos.mul_1_l, ?Z.mul_1_r. lia.
Qed.

Lemma percent_between (c t : Z) :
  (0 < t)%Z -> (0 <= c <= t)%Z ->
  (inject_Z 0 <= percent {| Stats.correct := c; Stats.total := t |})%Q /\
  (percent {| Stats.correct := c; Stats.total := t |} <= inject_Z 100)%Q.
Proof.
  intros Ht Hc. split.
  - apply (AnalyticsProps.percent_le 0 c t Ht). lia.
  - apply (percent_upper 100 c t Ht). lia.
Qed.

(** *** The streak *)

Lemma trailing_run (h : list History.QuestionRecord) :
  exists older run,
    h = older ++ run /\
    forallb History.correct run = true /\
    trailing (rev h) = Z.of_nat (List.length run) /\
    match rev older with
    | q :: _ => History.correct q = false
    | [] => True
    end.
Proof.
  induction h as [|q h IH] using rev_ind.
  - exists [], []. simpl. auto.
  - rewrite rev_app_distr. cbn [rev app trailing].
    destruct (History.correct q) eqn:Eq.
    + destruct IH as [older [run [Hh [Hrun [Ht Hold]]]]].
      exists older, (run ++ [q]). repeat split.
      * rewrite Hh at 1. rewrite app_assoc. reflexivity.
      * rewrite forallb_app, Hrun. simpl. rewrite Eq. reflexivity.
      * rewrite Ht, length_app. simpl. lia.
      * exact Hold.
    + exists (h ++ [q]), []. repeat split.
      * rewrite app_nil_r. reflexivity.
      * rewrite rev_app_distr. simpl. exact Eq.
Qed.

(** X1: the current streak counts the trailing run of correct answers.
    The history splits into older records and a final run: the run is all
    correct, the streak is its length, and the older part is empty or
    ends with an incorrect answer. *)
Theorem currentStreak_trailing_run (history : list History.QuestionRecord) :
  history <> [] -> forallb levelled history = true ->
  exists analytics older run,
    handler (Some history) = Summary200 analytics /\
    history = older ++ run /\
    forallb History.correct run = true /\
    Summary.currentStreak analytics = Z.of_nat (List.length run) /\
    match rev older with
    | q :: _ => History.correct q = false
    | [] => True
    end.
Proof.
  intros Hne Hh.
  destruct (trailing_run history) as [older [run [H1 [H2 [H3 H4]]]]].
  exists (summary_of history), older, run.
  split; [apply handler_closed; assumption|]. auto.
Qed.

Lemma currentStreak_trailing_run_witness :
  answers <> [] /\ forallb levelled answers = true /\
  exists analytics older run,
    handler (Some answers) = Summary200 analytics /\
    answers = older ++ run /\
    forallb History.correct run = true /\
    Summary.currentStreak analytics = Z.of_nat (List.length run) /\
    match rev older with
    | q :: _ => History.correct q = false
    | [] => True
    end.
Proof.
  assert (Hne : answers <> []) by discriminate.
  assert (Hh : forallb levelled answers = true) by reflexivity.
  split; [exact Hne|]. split; [exact Hh|].
  exact (currentStreak_trailing_run answers Hne Hh).
Defined.

(** *** The learning curve *)

Lemma mapi_shown (l : list History.QuestionRecord) :
  forall idx, map shown (mapi point idx l) = map outcome l.
Proof.
  induction l as [|q l IH]; intros idx; simpl; [reflexivity|].
  rewrite IH. reflexivity.
Qed.

Lemma mapi_question (l : list History.QuestionRecord) :
  forall idx,
  map Point.question (mapi point idx l)
  = map (fun k => (idx + Z.of_nat k)%Z) (seq 1 (List.length l)).
Proof.
  induction l as [|q l IH]; intros idx; [reflexivity|].
  cbn [mapi map List.length seq]. rewrite IH.
  rewrite <- (seq_shift (List.length l) 1), map_map.
  f_equal; try (simpl; lia).
  apply map_ext. intros k. lia.
Qed.

(** X2: the learning curve reports the last 10 records of the history
    (all of them when there are fewer), in their order, each with its
    correctness as 1 or 0 and its difficulty, numbered from 1. *)
Theorem learningCurve_window (history : list History.QuestionRecord) :
  history <> [] -> forallb levelled history = true ->
  exists analytics,
    handler (Some history) = Summary200 analytics /\
    map shown (Summary.learningCurve analytics) = map outcome (lastn 10 history) /\
    map Point.question (Summary.learningCurve analytics)
    = map Z.of_nat (seq 1 (Nat.min 10 (List.length history))).
Proof.
  intros Hne Hh. exists (summary_of history).
  split; [apply handler_closed; assumption|].
  cbn [summary_of Summary.learningCurve]. split.
  - apply mapi_shown.
  - rewrite mapi_question, TopicProps.lastn_length. reflexivity.
Qed.

Lemma learningCurve_window_witness :
  answers <> [] /\ forallb levelled answers = true /\
  exists analytics,
    handler (Some answers) = Summary200 analytics /\
    map shown (Summary.learningCurve analytics) = map outcome (lastn 10 answers) /\
    map Point.question (Summary.learningCurve analytics)
    = map Z.of_nat (seq 1 (Nat.min 10 (List.length answers))).
Proof.
  assert (Hne : answers <> []) by discriminate.
  assert (Hh : forallb levelled answers = true) by reflexivity.
  split; [exact Hne|]. split; [exact Hh|].
  exact (learningCurve_window answers Hne Hh).
Defined.

(** *** The counters and the accuracy *)



(** X4: the tally by difficulty conserves the history.  It lists the
    three levels in their order; the attempts of the levels add up to
    the total, their correct attempts to the correct answers, and no
    level has more correct attempts than attempts. *)
Theorem byDifficulty_conserves (history : list History.QuestionRecord) :
  history <> [] -> forallb levelled history = true ->
  exists analytics s1 s2 s3,
    handler (Some history) = Summary200 analytics /\
    Summary.byDifficulty analytics = [(Easy, s1); (Medium, s2); (Hard, s3)] /\
    (Stats.total s1 + Stats.total s2 + Stats.total s3
     = Summary.totalQuestions analytics)%Z /\
    (Stats.correct s1 + Stats.correct s2 + Stats.correct s3
     = Summary.correct analytics)%Z /\
    (0 <= Stats.correct s1 <= Stats.total s1)%Z /\
    (0 <= Stats.correct s2 <= Stats.total s2)%Z /\
    (0 <= Stats.correct s3 <= Stats.total s3)%Z.
Proof.
  intros Hne Hh. exists (summary_of history).
  do 3 eexists.
  split; [apply handler_closed; assumption|].
  split; [reflexivity|].
  cbn [summary_of Summary.totalQuestions Summary.correct Stats.total Stats.correct].
  destruct (attempts_total history Hh) as [Ha Hc].
  split; [exact Ha|]. split; [exact Hc|].
  repeat split; apply corrects_le_attempts.
Qed.

Lemma byDifficulty_conserves_witness :
  answers <> [] /\ forallb levelled answers = true /\
  exists analytics s1 s2 s3,
    handler (Some answers) = Summary200 analytics /\
    Summary.byDifficulty analytics = [(Easy, s1); (Medium, s2); (Hard, s3)] /\
    (Stats.total s1 + Stats.total s2 + Stats.total s3
     = Summary.totalQuestions analytics)%Z.
Proof.
  assert (Hne : answers <> []) by discriminate.
  assert (Hh : forallb levelled answers = true) by reflexivity.
  split; [exact Hne|]. split; [exact Hh|].
  destruct (byDifficulty_conserves answers Hne Hh)
    as [a [s1 [s2 [s3 [Ha [Ht [Hsum _]]]]]]].
  exists a, s1, s2, s3. auto.
Defined.

(** *** The strengths and the areas to improve *)

Lemma counted_entry (h : list History.QuestionRecord) (e : string * Stats.t) :
  In e (counted h) ->
  e = (fst e, {| Stats.correct := corrects (fst e) h;
                 Stats.total := attempts (fst e) h |}).
Proof.
  unfold counted, table. simpl.
  intros [<-|[<-|[<-|[]]]]; reflexivity.
Qed.

Lemma In_areas (f : string * Stats.t -> bool) (T : Tally) (x : Area.t) :
  In x (map area (filter f T)) ->
  exists e, In e T /\ f e = true /\ x = area e.
Proof.
  intros H. apply in_map_iff in H as [e [E He]].
  apply filter_In in He as [He Hf]. exists e. auto.
Qed.

Lemma strong_percent (e : string * Stats.t) :
  strong e = true ->
  (0 < Stats.total (snd e))%Z /\ (inject_Z 75 <= percent (snd e))%Q.
Proof.
  unfold strong. intros H. apply andb_true_iff in H as [Ht Hp].
  split; [apply Z.gtb_lt; exact Ht|].
  unfold geb in Hp. apply Qle_bool_iff in Hp. exact Hp.
Qed.

Lemma weak_percent (e : string * Stats.t) :
  weak e = true ->
  (0 < Stats.total (snd e))%Z /\ (percent (snd e) < inject_Z 50)%Q.
Proof.
  unfold weak. intros H. apply andb_true_iff in H as [Ht Hp].
  split; [apply Z.gtb_lt; exact Ht|].
  apply EstimatorProps.ltb_true in Hp. exact Hp.
Qed.

Lemma levels_areas (f : string * Stats.t -> bool) (T : Tally) :
  levels (map area (filter f T)) = map fst (filter f T).
Proof. unfold levels. rewrite map_map. reflexivity. Qed.

Lemma levels_in_order (f : string * Stats.t -> bool) (s1 s2 s3 : Stats.t) :
  let listed := map fst (filter f (table s1 s2 s3)) in
  listed = filter (fun t => existsb (String.eqb t) listed) [Easy; Medium; Hard].
Proof.
  unfold table. cbn [filter].
  destruct (f (Easy, s1)), (f (Medium, s2)), (f (Hard, s3)); reflexivity.
Qed.

(** X5: a level is never both a strength and an area to improve; each
    list names its levels in the order Easy, Medium, Hard, each at most
    once; a strength reports an accuracy from 75 to 100, an area to
    improve an accuracy from 0 to 50. *)
Theorem areas_sound (history : list History.QuestionRecord) :
  history <> [] -> forallb levelled history = true ->
  exists analytics,
    handler (Some history) = Summary200 analytics /\
    let S := Summary.strengthAreas analytics in
    let I := Summary.improvementAreas analytics in
    Forall (fun x => (75 <= Area.accuracy x <= 100)%Z) S /\
    Forall (fun x => (0 <= Area.accuracy x <= 50)%Z) I /\
    (forall t, In t (levels S) -> In t (levels I) -> False) /\
    levels S = filter (fun t => existsb (String.eqb t) (levels S)) [Easy; Medium; Hard] /\
    levels I = filter (fun t => existsb (String.eqb t) (levels I)) [Easy; Medium; Hard].
Proof.
  intros Hne Hh. exists (summary_of history).
  split; [apply handler_closed; assumption|].
  cbn [summary_of Summary.strengthAreas Summary.improvementAreas]. cbv zeta.
  assert (Hbound : forall e, In e (counted history) ->
            (0 < Stats.total (snd e))%Z ->
            (inject_Z 0 <= percent (snd e))%Q /\ (percent (snd e) <= inject_Z 100)%Q).
  { intros e He Ht. rewrite (counted_entry history e He) in Ht |- *.
    cbn [snd Stats.total] in Ht |- *.
    apply percent_between; [exact Ht|apply corrects_le_attempts]. }
  split; [|split; [|split; [|split]]].
  - apply Forall_forall. intros x Hx.
    apply In_areas in Hx as [e [He [Hs ->]]].
    destruct (strong_percent e Hs) as [Ht Hp].
    destruct (Hbound e He Ht) as [_ Hhi].
    unfold area, round. cbn [Area.accuracy].
    apply floor_half_between; assumption.
  - apply Forall_forall. intros x Hx.
    apply In_areas in Hx as [e [He [Hw ->]]].
    destruct (weak_percent e Hw) as [Ht Hp].
    destruct (Hbound e He Ht) as [Hlo _].
    unfold area, round. cbn [Area.accuracy].
    apply floor_half_between; [exact Hlo|]. apply Qlt_le_weak. exact Hp.
  - intros t HS HI. rewrite levels_areas in HS, HI.
    apply in_map_iff in HS as [e1 [E1 H1]]. apply filter_In in H1 as [H1 Hs].
    apply in_map_iff in HI as [e2 [E2 H2]]. apply filter_In in H2 as [H2 Hw].
    assert (E : e1 = e2).
    { rewrite (counted_entry history e1 H1), (counted_entry history e2 H2).
      rewrite E1, E2. reflexivity. }
    subst e2.
    destruct (strong_percent e1 Hs) as [_ Hge].
    destruct (weak_percent e1 Hw) as [_ Hlt].
    change (inject_Z 75) with 75%Q in Hge. change (inject_Z 50) with 50%Q in Hlt.
    lra.
  - rewrite levels_areas. apply levels_in_order.
  - rewrite levels_areas. apply levels_in_order.
Qed.

Lemma areas_sound_witness :
  answers <> [] /\ forallb levelled answers = true /\
  exists analytics,
    handler (Some answers) = Summary200 analytics /\
    levels (Summary.strengthAreas analytics) = [Medium] /\
    levels (Summary.improvementAreas analytics) = [Easy; Hard] /\
    Forall (fun x => (75 <= Area.accuracy x <= 100)%Z) (Summary.strengthAreas analytics).
Proof.
  assert (Hne : answers <> []) by discriminate.
  assert (Hh : forallb levelled answers = true) by reflexivity.
  split; [exact Hne|]. split; [exact Hh|].
  destruct (areas_sound answers Hne Hh) as [a [Ha [HS _]]].
  exists a. split; [exact Ha|].
  assert (E : Summary200 a = Summary200 (summary_of answers))
    by (rewrite <- Ha; reflexivity).
  injection E as E.
  split; [rewrite E; reflexivity|]. split; [rewrite E; reflexivity|exact HS].
Defined.

(** A record of difficulty [__proto__] puts [total] on the prototype of
    every object; a record of difficulty [total] after it is then tallied
    on that Number, without effect and without error, and the request is
    answered. *)
Remark proto_then_total_answers :
  handler (Some [answer (Some "__proto__") false; answer (Some "total") true])
  = Summary200 (summary_of [answer (Some "__proto__") false; answer (Some "total") true])
  /\ handler (Some [answer (Some "total") true; answer (Some "__proto__") false])
     = Error500 "Cannot read properties of undefined (reading 'total')".
Proof. split; reflexivity. Qed.

(** X6: one record whose difficulty is a non-empty string other than the
    three levels, other than a name that an object inherits, and other
    than [total] and [correct] (which a record of difficulty [__proto__]
    can make it inherit), makes the whole request fail with status 500,
    wherever the record stands and whatever the other records are. *)
Theorem unknown_level_fails (history : list History.QuestionRecord) :
  existsb (fun q => unknown (tier q)) history = true ->
  handler (Some history)
  = Error500 "Cannot read properties of undefined (reading 'total')".
Proof.
  intros Hh. destruct history as [|q h]; [discriminate|].
  unfold handler, summary.
  rewrite AnalyticsProps.forEach_tally_unknown by (reflexivity || exact Hh).
  reflexivity.
Qed.

Lemma unknown_level_fails_witness :
  let history := answers ++ [answer (Some "avanzado") true] ++ answers in
  existsb (fun q => unknown (tier q)) history = true /\
  handler (Some history)
  = Error500 "Cannot read properties of undefined (reading 'total')".
Proof.
  intros history. split; [reflexivity|].
  apply (unknown_level_fails history). reflexivity.
Defined.

(** *** The average difficulty *)






End AnalyticsMore.

(* ===================================================================== *)
(** ** Properties of the conversation handler *)
(* ===================================================================== *)

Module ConversationProps.

Import Js Spec.
Import Conversation.

Lemma turn_item (msg : json) :
  isNull msg = false -> turn msg = Ret (turnOf msg).
Proof.
  destruct msg as [| | | | |fields]; try discriminate; intros _; try reflexivity.
  unfold turn, turnOf, saysUser, contentOf. simpl.
  destruct (assoc "role" fields) as [[| | |x| |]|]; reflexivity.
Qed.

Lemma pushAll_items (l : list json) :
  existsb isNull l = false -> pushAll l = Ret (map turnOf l).
Proof.
  induction l as [|msg l IH]; [reflexivity|].
  cbn [existsb pushAll map]. intros H.
  apply orb_false_iff in H as [Hm Hl].
  rewrite (turn_item msg Hm), (IH Hl). reflexivity.
Qed.

Lemma pushAll_null (l : list json) :
  existsb isNull l = true ->
  pushAll l = Throw (TypeError "Cannot read properties of null (reading 'role')").
Proof.
  induction l as [|msg l IH]; [discriminate|].
  cbn [existsb pushAll]. intros H.
  destruct (isNull msg) eqn:Hm.
  - destruct msg; try discriminate. reflexivity.
  - simpl in H. rewrite (turn_item msg Hm), (IH H). reflexivity.
Qed.

Lemma messages_pushes (systemPrompt : string) (body : Body) :
  messages systemPrompt body
  = bind (pushAll (lastn 6 (dialogue body)))
         (fun turns =>
            Ret ({| role := "system"; content := Some (JStr systemPrompt) |}
                 :: turns ++ current body)).
Proof.
  unfold messages, dialogue, current.
  destruct (conversationHistory body) as [history|]; [|reflexivity].
  assert (Hs : slice (-6) history = lastn 6 history)
    by (apply (TopicProps.slice_negative 6); lia).
  destruct history as [|msg history]; [reflexivity|].
  cbn [List.length Nat.ltb Nat.leb]. rewrite Hs. reflexivity.
Qed.

(** X17: the array sent to the provider opens with the system prompt,
    continues with the last 6 turns of the history in their order, each
    under the role [user] or [assistant] with its content, and closes
    with the current user message when there is one: at most 8 messages.
    A [null] among those last 6 turns makes the construction throw; a
    [null] further back does not matter. *)
Theorem messages_window (systemPrompt : string) (body : Body) :
  let window := lastn 6 (dialogue body) in
  let system := {| role := "system"; content := Some (JStr systemPrompt) |} in
  (existsb isNull window = true ->
   messages systemPrompt body
   = Throw (TypeError "Cannot read properties of null (reading 'role')")) /\
  (existsb isNull window = false ->
   messages systemPrompt body = Ret (system :: map turnOf window ++ current body) /\
   (List.length (system :: map turnOf window ++ current body) <= 8)%nat /\
   Forall (fun m => dialogueRole m = true) (map turnOf window ++ current body)).
Proof.
  intros window system. rewrite messages_pushes. fold window. split.
  - intros H. rewrite (pushAll_null window H). reflexivity.
  - intros H. rewrite (pushAll_items window H). cbn [bind].
    split; [reflexivity|]. split.
    + cbn [List.length]. rewrite length_app, length_map.
      unfold window. rewrite TopicProps.lastn_length.
      unfold current. destruct (isFirstMessage body); cbn [List.length]; lia.
    + apply Forall_app. split.
      * apply Forall_forall. intros m Hm.
        apply in_map_iff in Hm as [msg [<- _]].
        unfold turnOf, dialogueRole. cbn [role].
        destruct (saysUser msg); reflexivity.
      * unfold current. destruct (isFirstMessage body); repeat constructor.
Qed.

(** X17 on a history of eight turns whose second is [null]. *)
Lemma messages_window_witness :
  let history := [ said "user" "1"; JNull; said "user" "3"; said "tutor" "4";
                   said "user" "5"; said "assistant" "6"; JNum 7; said "user" "8" ] in
  let body := {| language := Some "es"; level := Some "A1"; scenario := Some "Café";
                 userMessage := Some "Hola";
                 conversationHistory := Some history |} in
  existsb isNull (lastn 6 (dialogue body)) = false /\
  option_map (map role) (match messages "prompt" body with
                         | Ret ms => Some ms
                         | Throw _ => None
                         end)
  = Some ["system"; "user"; "assistant"; "user"; "assistant"; "assistant"; "user"; "user"].
Proof.
  intros history body. split; [reflexivity|].
  destruct (messages_window "prompt" body) as [_ H].
  destruct (H eq_refl) as [E _]. rewrite E. reflexivity.
Defined.

(** X19: when the three required fields are truthy, the key is
    configured, none of the last 6 turns is [null] and the provider
    answers, the handler answers 200 with the provider text trimmed, an
    empty list of corrections and the fields of the request. *)
Theorem conversation_replies (OPENROUTER_API_KEY : option string) (systemPrompt : string)
        (body : Body) (content : text) (usage : option json) :
  required body = true ->
  truthyStr OPENROUTER_API_KEY = true ->
  existsb isNull (lastn 6 (dialogue body)) = false ->
  handler OPENROUTER_API_KEY systemPrompt body (Generate.Ok content usage)
  = {| status := 200;
       payload := Reply (Generate.trim content) [] (language body) (level body)
                        (scenario body) (Generate.usageTokens usage) |}.
Proof.
  unfold required. intros Hr Hk Hw.
  apply andb_true_iff in Hr as [Hr Hs]. apply andb_true_iff in Hr as [Hl Hv].
  unfold handler. rewrite Hl, Hv, Hs, Hk. cbn [negb orb].
  rewrite messages_pushes, (pushAll_items _ Hw). reflexivity.
Qed.

Lemma conversation_replies_witness :
  let body := {| language := Some "es"; level := Some "A1"; scenario := Some "Café";
                 userMessage := None;
                 conversationHistory := Some [JNull; said "user" "1"; said "a" "2";
                                              said "user" "3"; said "a" "4";
                                              said "user" "5"; said "a" "6"] |} in
  required body = true /\ truthyStr (Some "key") = true /\
  existsb isNull (lastn 6 (dialogue body)) = false /\
  status (handler (Some "key") "prompt" body (Generate.Ok (lit " Hola ") None)) = 200%nat.
Proof.
  intros body. split; [reflexivity|]. split; [reflexivity|]. split; [reflexivity|].
  rewrite (conversation_replies (Some "key") "prompt" body (lit " Hola ") None
             eq_refl eq_refl eq_refl).
  reflexivity.
Defined.

(** X18: whatever the request and the provider, the handler answers.  A
    reply has status 200, an empty list of corrections and a message
    that is the provider text trimmed (trimming it again changes
    nothing), and it is sent only when the required fields are truthy,
    the key is configured and none of the last 6 turns is [null]; any
    other answer has status 400 or 500 and a non-empty error message. *)
Theorem conversation_outcome (OPENROUTER_API_KEY : option string) (systemPrompt : string)
        (body : Body) (provider : Generate.Provider) :
  let r := handler OPENROUTER_API_KEY systemPrompt body provider in
  match payload r with
  | Reply aiMessage corrections _ _ _ _ =>
      status r = 200%nat /\ corrections = [] /\
      Generate.trim aiMessage = aiMessage /\
      (exists content usage,
          provider = Generate.Ok content usage /\ aiMessage = Generate.trim content) /\
      required body = true /\ truthyStr OPENROUTER_API_KEY = true /\
      existsb isNull (lastn 6 (dialogue body)) = false
  | Failure error =>
      (status r = 400%nat \/ status r = 500%nat) /\ String.eqb error "" = false
  end.
Proof.
  intros r. subst r. unfold handler.
  destruct (required body) eqn:Hr.
  - unfold required in Hr.
    apply andb_true_iff in Hr as [Hr Hs]. apply andb_true_iff in Hr as [Hl Hv].
    rewrite Hl, Hv, Hs. cbn [negb orb].
    destruct (truthyStr OPENROUTER_API_KEY) eqn:Hk; cbn [negb];
      [|simpl; auto].
    rewrite messages_pushes.
    destruct (existsb isNull (lastn 6 (dialogue body))) eqn:Hw.
    + rewrite (pushAll_null _ Hw). simpl. auto.
    + rewrite (pushAll_items _ Hw). cbn [bind].
      destruct provider as [e|statusText errorText|content usage]; simpl.
      * split; [auto|]. destruct (String.eqb (message e) "") eqn:E; [reflexivity|exact E].
      * auto.
      * split; [reflexivity|]. split; [reflexivity|].
        split; [apply FenceProps.trim_idem|].
        split; [exists content, usage; split; reflexivity|].
        auto.
  - unfold required in Hr.
    destruct (truthyStr (language body)); simpl in *; [|auto].
    destruct (truthyStr (level body)); simpl in *; [|auto].
    rewrite Hr. simpl. auto.
Qed.

End ConversationProps.

(* ===================================================================== *)
(** ** Further properties of the speech relay *)
(* ===================================================================== *)

Module SpeakMore.

Import Js Spec.
Import Speak.

Lemma relay_audio (env : Env) (body : Body) (tts : Tts) (t : string)
      (audioBuffer : list Byte.byte) :
  text body = Some (JStr t) -> String.eqb t "" = false ->
  interpolates (language body) = true ->
  interpolates (Some (voiceOf body)) = true ->
  credential env = true -> tts = Ok audioBuffer ->
  handler env body tts
  = {| status := 200;
       payload := Audio audioBuffer (voiceOf body) (List.length audioBuffer) |}.
Proof.
  intros Ht Hne Hl Hv Hc ->. unfold handler, relay. fold (voiceOf body).
  rewrite Ht. simpl. rewrite Hne. simpl.
  unfold interpolate. rewrite Hl, Hv. cbn [bind].
  rewrite SpeakProps.openaiKey_credential, Hc. reflexivity.
Qed.

(** X16: the relay sends audio exactly when [text] is a non-empty string,
    [language] and the voice can be printed into the log line, a
    credential is configured and the provider delivers; the body then
    carries the bytes of the provider unchanged, their count as [size],
    and the requested voice, [nova] when none is requested. *)
Theorem speak_audio_iff (env : Env) (body : Body) (tts : Tts) :
  let r := handler env body tts in
  (forall t audioBuffer,
      text body = Some (JStr t) -> String.eqb t "" = false ->
      interpolates (language body) = true ->
      interpolates (Some (voiceOf body)) = true ->
      credential env = true -> tts = Ok audioBuffer ->
      r = {| status := 200;
             payload := Audio audioBuffer (voiceOf body) (List.length audioBuffer) |}) /\
  match payload r with
  | Audio audioBuffer v size =>
      status r = 200%nat /\ tts = Ok audioBuffer /\ v = voiceOf body /\
      size = List.length audioBuffer /\ credential env = true /\
      interpolates (language body) = true /\
      interpolates (Some (voiceOf body)) = true /\
      exists t, text body = Some (JStr t) /\ String.eqb t "" = false
  | _ => True
  end.
Proof.
  intros r. split.
  - intros t audioBuffer. apply relay_audio.
  - subst r. unfold handler, relay. fold (voiceOf body).
    destruct (truthy (text body)) eqn:Ht; cbn [negb]; [|exact I].
    destruct (text body) as [[| | |t| |]|] eqn:Et; simpl; try exact I.
    unfold interpolate.
    destruct (interpolates (language body)) eqn:Hl; cbn [bind]; [|exact I].
    destruct (interpolates (Some (voiceOf body))) eqn:Hv; cbn [bind]; [|exact I].
    rewrite SpeakProps.openaiKey_credential.
    destruct (credential env) eqn:Hc; simpl; [|exact I].
    destruct tts as [e|st errorText|audioBuffer]; simpl; try exact I.
    do 5 (split; [reflexivity|]).
    split; [reflexivity|]. split; [exact Hv|].
    exists t. split; [reflexivity|].
    simpl in Ht. apply negb_true_iff in Ht. exact Ht.
Qed.

(** X16 on a spoken word with a configured key. *)
Lemma speak_audio_iff_witness :
  let env := {| OPENAI_API_KEY := None; OPENROUTER_API_KEY := Some "key" |} in
  let body := {| text := Some (JStr "hola"); language := None; voice := None |} in
  let audio := [Byte.x49; Byte.x44; Byte.x33] in
  text body = Some (JStr "hola") /\ String.eqb "hola" "" = false /\
  interpolates (language body) = true /\
  interpolates (Some (voiceOf body)) = true /\
  credential env = true /\
  handler env body (Ok audio)
  = {| status := 200; payload := Audio audio (JStr "nova") 3 |}.
Proof.
  intros env body audio.
  split; [reflexivity|]. split; [reflexivity|]. split; [reflexivity|].
  split; [reflexivity|]. split; [reflexivity|].
  apply (proj1 (speak_audio_iff env body (Ok audio)) "hola" audio); reflexivity.
Defined.

End SpeakMore.
